(** * ceda-unittest-nagios-wrapper: [script.py]

    A shallow embedding of [ceda/unittest_nagios_wrapper/script.py] and the
    properties of its status evaluator, fact enumerator, reporter and entry
    point.

    Python values are modelled as follows: [int] as [Z], [str] as [string],
    [None]-or-value as [option], lists as [list], the [logging] dictionaries
    as association lists (their iteration order is used by the script), and
    the process-wide logger as an explicit list of emitted records and
    attached handlers. *)

From Stdlib Require Import String Ascii List ZArith Lia Bool DecimalString.
Import ListNotations.
Local Open Scope string_scope.
Local Open Scope Z_scope.

(** ** The [logging] module, as far as the script uses it *)

Module logging.

Definition CRITICAL : Z := 50.
Definition ERROR : Z := 40.
Definition WARNING : Z := 30.
Definition WARN : Z := WARNING.
Definition INFO : Z := 20.
Definition DEBUG : Z := 10.
Definition NOTSET : Z := 0.

(** [logging._levelToName] and [logging._nameToLevel], in the order the
    module declares their entries. *)
Definition _levelToName : list (Z * string) :=
  [ (CRITICAL, "CRITICAL"); (ERROR, "ERROR"); (WARNING, "WARNING");
    (INFO, "INFO"); (DEBUG, "DEBUG"); (NOTSET, "NOTSET") ].

Definition _nameToLevel : list (string * Z) :=
  [ ("CRITICAL", CRITICAL); ("FATAL", CRITICAL); ("ERROR", ERROR);
    ("WARN", WARNING); ("WARNING", WARNING); ("INFO", INFO);
    ("DEBUG", DEBUG); ("NOTSET", NOTSET) ].

(** [d.get(k)] on a dictionary kept as an association list. *)
Fixpoint dict_get {K V : Type} (eqb : K -> K -> bool)
         (d : list (K * V)) (k : K) : option V :=
  match d with
  | [] => None
  | (k', v) :: d' => if eqb k' k then Some v else dict_get eqb d' k
  end.

(** [d.get(k)] where [k] itself may be [None]: [None] is never a key of the
    two dictionaries above. *)
Definition dict_get_opt {K V : Type} (eqb : K -> K -> bool)
           (d : list (K * V)) (k : option K) : option V :=
  match k with
  | None => None
  | Some k => dict_get eqb d k
  end.

(** One call of [log.critical], [log.error], [log.info] or [log.debug]:
    the level, the message, and the [slack_exception_attachment] extra
    when one is passed. *)
Record LogRecord : Type := mkLogRecord {
  levelno : Z;
  msg : string;
  slack_exception_attachment : option string
}.

Definition critical (m : string) : LogRecord := mkLogRecord CRITICAL m None.
Definition error (m : string) : LogRecord := mkLogRecord ERROR m None.
Definition info (m : string) : LogRecord := mkLogRecord INFO m None.
Definition debug (m : string) (extra : option string) : LogRecord :=
  mkLogRecord DEBUG m extra.

End logging.

(** ** The [unittest] framework, as far as the script uses it *)

Module unittest.

(** What one test reports to the [TestResult] while it runs, each with its
    formatted traceback: a failure ([addFailure], an assertion that does
    not hold) or an error ([addError], any other exception) of the test
    itself, in its [setUp], its body, its [tearDown] or a clean-up; or a
    failure or an error inside a [with self.subTest(...)] block
    ([addSubTest]), recorded for the subtest with its description.  A test
    that reports nothing has passed, was skipped or failed as expected; a
    test whose body fails and whose [tearDown] raises reports twice. *)
Inductive Problem : Type :=
| Failure (traceback : string)
| Error (traceback : string)
| SubTestFailure (description traceback : string)
| SubTestError (description traceback : string).

(** A callable attribute of a test-case class: its name and what running
    it as a test reports. *)
Record Method : Type := mkMethod {
  method_name : string;
  method_reports : list Problem
}.

(** A fixture that runs before the tests ([setUpModule], [setUpClass]): it
    returns, or it raises, and then the tests it guards do not run.  The
    tracebacks are those [addError] records for it: none when it raises
    [SkipTest], its own and those of the clean-ups that raise otherwise. *)
Inductive SetUpFixture : Type :=
| set_up_returns
| set_up_raises (tracebacks : list string).

(** A [unittest.TestCase] subclass: [__module__], [__name__], the callable
    attributes [dir] lists, and the fixtures of the class and of its
    module.  A fixture that runs after the tests ([tearDownClass],
    [tearDownModule]) is given by the tracebacks recorded for it, none when
    it is absent or returns. *)
Record TestCaseClass : Type := mkClass {
  cls_module : string;
  cls_name : string;
  cls_dir : list Method;
  setUpModule : SetUpFixture;
  setUpClass : SetUpFixture;
  tearDownClass : list string;
  tearDownModule : list string
}.

(** A class without fixtures. *)
Definition mkTestCaseClass (cls_module cls_name : string) (cls_dir : list Method)
  : TestCaseClass :=
  mkClass cls_module cls_name cls_dir set_up_returns set_up_returns [] [].

(** An instance of the class for one test method. *)
Record TestCase : Type := mkTestCase {
  test_class : TestCaseClass;
  test_method : Method
}.

(** What stands for a test in an entry of [failures] and [errors]: the
    test, one of its subtests ([_SubTest]), or the placeholder of a class
    or module fixture ([_ErrorHolder]). *)
Inductive Test : Type :=
| test_case (t : TestCase)
| sub_test (t : TestCase) (description : string)
| error_holder (description : string).

Definition strclass (c : TestCaseClass) : string :=
  cls_module c ++ "." ++ cls_name c.

(** [str(x)], for the objects that define [__str__]. *)
Class Str (T : Type) : Type := str : T -> string.

(** [TestCase.__str__], as CPython has it before 3.11:
    ["%s (%s)" % (self._testMethodName, strclass(self.__class__))]. *)
#[export] Instance TestCase_str : Str TestCase :=
  fun t => method_name (test_method t) ++ " (" ++ strclass (test_class t) ++ ")".

(** [_SubTest.__str__]: ["{} {}".format(self.test_case, self._subDescription())];
    [_ErrorHolder.__str__]: the description. *)
#[export] Instance Test_str : Str Test :=
  fun x =>
    match x with
    | test_case t => str t
    | sub_test t description => str t ++ " " ++ description
    | error_holder description => description
    end.

Record TestResult : Type := mkTestResult {
  failures : list (Test * string);
  errors : list (Test * string);
  testsRun : Z
}.

(** [unittest.TestResult()] *)
Definition TestResult_new : TestResult := mkTestResult [] [] 0.

Definition startTest (r : TestResult) : TestResult :=
  mkTestResult (failures r) (errors r) (testsRun r + 1).

Definition addFailure (r : TestResult) (t : Test) (tb : string) : TestResult :=
  mkTestResult (failures r ++ [(t, tb)])%list (errors r) (testsRun r).

Definition addError (r : TestResult) (t : Test) (tb : string) : TestResult :=
  mkTestResult (failures r) (errors r ++ [(t, tb)])%list (testsRun r).

Definition report (t : TestCase) (r : TestResult) (p : Problem) : TestResult :=
  match p with
  | Failure tb => addFailure r (test_case t) tb
  | Error tb => addError r (test_case t) tb
  | SubTestFailure description tb => addFailure r (sub_test t description) tb
  | SubTestError description tb => addError r (sub_test t description) tb
  end.

(** [TestCase.run(result)]: [startTest], then whatever the test reports. *)
Definition TestCase_run (r : TestResult) (t : TestCase) : TestResult :=
  fold_left (report t) (method_reports (test_method t)) (startTest r).

(** [_createClassOrModuleLevelException]: an error under the placeholder
    ["<method_name> (<parent>)"] for each traceback of a fixture. *)
Definition record_fixture (fixture parent : string) (tracebacks : list string)
           (r : TestResult) : TestResult :=
  fold_left
    (fun r tb => addError r (error_holder (fixture ++ " (" ++ parent ++ ")")) tb)
    tracebacks r.

(** [TestSuite.run(result)] over the tests of one class, as
    [loadTestsFromTestCase] builds them, on a result that no suite has
    entered.  No fixture runs for an empty suite.  Otherwise [setUpModule]
    runs first: when it raises, nothing else runs.  Then [setUpClass]: when
    it raises, neither the tests nor [tearDownClass] run.  Then the tests
    in order and [tearDownClass]; [tearDownModule] runs last. *)
Definition TestSuite_run (suite : list TestCase) (r : TestResult) : TestResult :=
  match suite with
  | [] => r
  | t :: _ =>
      let c := test_class t in
      match setUpModule c with
      | set_up_raises tracebacks =>
          record_fixture "setUpModule" (cls_module c) tracebacks r
      | set_up_returns =>
          let r :=
            match setUpClass c with
            | set_up_raises tracebacks =>
                record_fixture "setUpClass" (strclass c) tracebacks r
            | set_up_returns =>
                record_fixture "tearDownClass" (strclass c) (tearDownClass c)
                               (fold_left TestCase_run suite r)
            end in
          record_fixture "tearDownModule" (cls_module c) (tearDownModule c) r
      end
  end.

(** [sorted] on method names (insertion into an ordered list; Python
    compares [str] by code point, as [String.leb] does on bytes). *)
Fixpoint insert_sorted (m : Method) (l : list Method) : list Method :=
  match l with
  | [] => [m]
  | m' :: l' =>
      if String.leb (method_name m) (method_name m')
      then m :: l
      else m' :: insert_sorted m l'
  end.

Definition sorted (l : list Method) : list Method :=
  fold_right insert_sorted [] l.

(** [TestLoader.getTestCaseNames]: the callables whose name starts with
    the loader's prefix ["test"], sorted. *)
Definition getTestCaseNames (c : TestCaseClass) : list Method :=
  sorted (filter (fun m => String.prefix "test" (method_name m)) (cls_dir c)).

(** [TestLoader.loadTestsFromTestCase]: one instance per test name; a
    class without test names but with a [runTest] method gives that one. *)
Definition loadTestsFromTestCase (c : TestCaseClass) : list TestCase :=
  let names := getTestCaseNames c in
  let names :=
    match names with
    | [] => filter (fun m => String.eqb (method_name m) "runTest") (cls_dir c)
    | _ => names
    end in
  map (mkTestCase c) names.

End unittest.

(** ** The [nagiosplugin] framework, as far as the script uses it *)

Module nagiosplugin.

(** [nagiosplugin.state]: the service states and their exit codes. *)
Inductive ServiceState : Type := Ok | Warn | Critical | Unknown.

Definition code (s : ServiceState) : Z :=
  match s with Ok => 0 | Warn => 1 | Critical => 2 | Unknown => 3 end.

(** [nagiosplugin.Metric(name, value, context=...)]; [metric[0]] is the name. *)
Record Metric : Type := mkMetric {
  name : string;
  value : bool;
  context : string
}.

(** [nagiosplugin.Result(state, hint=..., metric=...)] *)
Record Result : Type := mkResult {
  state : ServiceState;
  hint : string;
  metric : Metric
}.

End nagiosplugin.

Import unittest nagiosplugin.

(** ** [UnittestCaseContext] *)

Record UnittestCaseContext : Type := mkUnittestCaseContext {
  context_name : string;
  (** [self.describe(metric)] formatted by ['{}'.format]: inherited from
      [nagiosplugin.Context], fixed by the [fmt_metric] the context was
      built with. *)
  describe : Metric -> string;
  _unittestcase_class : TestCaseClass
}.

(** The body of one iteration of the two [for] loops of [evaluate]:
    [log.error(p[0])], [log.debug('', extra=...)], [hint_list.append(str(p[0]))].
    The loop state is the list of hints and the records logged so far. *)
Definition log_problem (acc : list string * list logging.LogRecord)
           (p : Test * string) : list string * list logging.LogRecord :=
  let '(hint_list, logged) := acc in
  ((hint_list ++ [str (fst p)])%list,
   (logged ++ [logging.error (str (fst p)); logging.debug "" (Some (snd p))])%list).

(** Lines 48-87 of [evaluate]: from the [TestResult] of the run to the
    [Result], with the records written to the log. *)
Definition evaluate_result (self : UnittestCaseContext) (metric : Metric)
           (result : TestResult) : Result * list logging.LogRecord :=
  let test_name := name metric in
  let n_failures := Z.of_nat (length (failures result)) in
  let n_errors := Z.of_nat (length (errors result)) in
  let n_problems := n_failures + n_errors in
  if 0 <? n_problems then
    let '(status, hint) :=
      if testsRun result =? n_problems
      then (Critical, "All tests failed: ")
      else (Warn, "Some tests failed: ") in
    let logged := [logging.critical (describe self metric ++ " failed")] in
    let hint_list := [] in
    let '(hint_list, logged) := fold_left log_problem (errors result) (hint_list, logged) in
    let '(hint_list, logged) := fold_left log_problem (failures result) (hint_list, logged) in
    let hint := hint ++ String.concat ", " hint_list in
    (mkResult status hint metric, logged)
  else
    let status := Ok in
    let hint := test_name ++ " test passed" in
    (mkResult status hint metric, []).

(** [UnittestCaseContext.evaluate(self, metric, resource)]: the suite is
    loaded from the context's class and run on a fresh [TestResult].  The
    [resource] argument is not used by the method. *)
Definition evaluate (self : UnittestCaseContext) (metric : Metric)
  : Result * list logging.LogRecord :=
  let test_suite := loadTestsFromTestCase (_unittestcase_class self) in
  let result := TestSuite_run test_suite TestResult_new in
  evaluate_result self metric result.

(** ** [UnittestCaseResource] *)

Record UnittestCaseResource : Type := mkUnittestCaseResource {
  test_names : list string
}.

(** [probe]: one metric per test name, in order. *)
Definition probe (self : UnittestCaseResource) : list Metric :=
  map (fun test_name => mkMetric test_name true "UnittestCaseContext")
      (test_names self).

(** ** [UnittestCaseResultsSummary] *)

Module UnittestCaseResultsSummary.

Definition ok (results : list Result) : string * list logging.LogRecord :=
  let msg := String.concat ", " (map hint results) in
  (msg, [logging.info msg]).

Definition problem (results : list Result) : string * list logging.LogRecord :=
  let msg := String.concat ", " (map hint results) in
  (msg, [logging.info msg]).

End UnittestCaseResultsSummary.

(** ** [argparse], for a parser whose options all take one argument

    The parser of the script declares [-h/--help] (added by [ArgumentParser]
    itself) and five options stored under a [dest]; it declares no
    positional argument, so every positional string of the command line is
    left over by [parse_known_args].  The functions below follow
    [ArgumentParser._parse_optional], [_get_option_tuples] and
    [_parse_known_args] of CPython's argparse, as of 3.11.  The message of
    a usage error is kept without the name of the argument it is about. *)

Module argparse.

Inductive Dest : Type :=
| dest_check_name | dest_log_level | dest_slack_webhook_url
| dest_slack_channel | dest_slack_user.

(** The attributes of the [Namespace] that the script's parser fills:
    a string, or [None]. *)
Record Namespace : Type := mkNamespace {
  check_name : option string;
  log_level : option string;
  slack_webhook_url : option string;
  slack_channel : option string;
  slack_user : option string
}.

Definition setattr (ns : Namespace) (d : Dest) (v : option string) : Namespace :=
  match d with
  | dest_check_name =>
      mkNamespace v (log_level ns) (slack_webhook_url ns) (slack_channel ns) (slack_user ns)
  | dest_log_level =>
      mkNamespace (check_name ns) v (slack_webhook_url ns) (slack_channel ns) (slack_user ns)
  | dest_slack_webhook_url =>
      mkNamespace (check_name ns) (log_level ns) v (slack_channel ns) (slack_user ns)
  | dest_slack_channel =>
      mkNamespace (check_name ns) (log_level ns) (slack_webhook_url ns) v (slack_user ns)
  | dest_slack_user =>
      mkNamespace (check_name ns) (log_level ns) (slack_webhook_url ns) (slack_channel ns) v
  end.

Definition getattr (ns : Namespace) (d : Dest) : option string :=
  match d with
  | dest_check_name => check_name ns
  | dest_log_level => log_level ns
  | dest_slack_webhook_url => slack_webhook_url ns
  | dest_slack_channel => slack_channel ns
  | dest_slack_user => slack_user ns
  end.

Inductive ActionKind : Type :=
| store (dest : Dest)
| help.

(** One [add_argument] call: the option strings, what the option does and
    the [default] of its [dest]. *)
Record Action : Type := mkAction {
  option_strings : list string;
  kind : ActionKind;
  default : option string
}.

(** [ArgumentParser(...)] after its [add_argument] calls, [-h] first. *)
Record ArgumentParser : Type := mkArgumentParser {
  _actions : list Action
}.

Definition help_action : Action := mkAction ["-h"; "--help"] help None.

Definition add_argument (p : ArgumentParser) (short long : string)
           (dest : Dest) (default : option string) : ArgumentParser :=
  mkArgumentParser (_actions p ++ [mkAction [short; long] (store dest) default])%list.

(** [parser._option_string_actions], as a list in declaration order. *)
Definition _option_string_actions (p : ArgumentParser) : list (string * ActionKind) :=
  flat_map (fun a => map (fun s => (s, kind a)) (option_strings a)) (_actions p).

(** The namespace [parse_known_args] starts from: every [dest] set to its
    action's [default]. *)
Definition initial_namespace (p : ArgumentParser) : Namespace :=
  fold_left
    (fun ns a => match kind a with
                 | store d => setattr ns d (default a)
                 | help => ns
                 end)
    (_actions p) (mkNamespace None None None None None).

(** *** Strings *)

Definition is_dash (c : ascii) : bool := Ascii.eqb c "-".
Definition is_digit (c : ascii) : bool :=
  (48 <=? Z.of_nat (nat_of_ascii c)) && (Z.of_nat (nat_of_ascii c) <=? 57).

Fixpoint all_digits (s : string) : bool :=
  match s with
  | EmptyString => true
  | String c s' => is_digit c && all_digits s'
  end.

Fixpoint contains (c : ascii) (s : string) : bool :=
  match s with
  | EmptyString => false
  | String c' s' => Ascii.eqb c' c || contains c s'
  end.

(** [s.split(c, 1)] when [c] occurs in [s]. *)
Fixpoint split1 (c : ascii) (s : string) : option (string * string) :=
  match s with
  | EmptyString => None
  | String c' s' =>
      if Ascii.eqb c' c then Some (EmptyString, s')
      else match split1 c s' with
           | Some (l, r) => Some (String c' l, r)
           | None => None
           end
  end.

(** [s] without the one newline it may end with: where [$] matches. *)
Fixpoint before_final_newline (s : string) : string :=
  match s with
  | EmptyString => EmptyString
  | String c EmptyString => if Ascii.eqb c "010" then EmptyString else s
  | String c s' => String c (before_final_newline s')
  end.

(** [_negative_number_matcher]: [^-\d+$|^-\d*\.\d+$]. *)
Definition negative_number_like (s : string) : bool :=
  match s with
  | String c rest =>
      let rest := before_final_newline rest in
      is_dash c &&
      match split1 "." rest with
      | None => negb (String.eqb rest "") && all_digits rest
      | Some (int_part, frac) =>
          all_digits int_part && negb (String.eqb frac "") && all_digits frac
      end
  | EmptyString => false
  end.

(** *** Classification of one argument string *)

(** The result of [_parse_optional]: [None] there is [positional] here;
    a tuple [(action, option_string, explicit_arg)] is [optional], with
    [None] for an option the parser does not know; an ambiguous
    abbreviation is a usage error. *)
Inductive Parsed : Type :=
| positional
| optional (action : option ActionKind) (option_string : string)
           (explicit_arg : option string)
| ambiguous.

(** [_get_option_tuples]: the options a string may abbreviate.  For a
    string that starts with two dashes, every option string it is a
    prefix of (up to its [=]); for one dash, the short option made of its
    first two characters, with the rest as explicit argument, and every
    option string it is a prefix of. *)
Definition _get_option_tuples (p : ArgumentParser) (arg_string : string)
  : list (ActionKind * string * option string) :=
  match arg_string with
  | String _ (String c1 _) =>
      if is_dash c1 then
        let '(option_prefix, explicit_arg) :=
          match split1 "=" arg_string with
          | Some (l, r) => (l, Some r)
          | None => (arg_string, None)
          end in
        flat_map (fun '(option_string, action) =>
                    if String.prefix option_prefix option_string
                    then [(action, option_string, explicit_arg)] else [])
                 (_option_string_actions p)
      else
        let short_option_prefix := substring 0 2 arg_string in
        let short_explicit_arg := substring 2 (String.length arg_string - 2) arg_string in
        flat_map (fun '(option_string, action) =>
                    if String.eqb option_string short_option_prefix
                    then [(action, option_string, Some short_explicit_arg)]
                    else if String.prefix arg_string option_string
                    then [(action, option_string, None)] else [])
                 (_option_string_actions p)
  | _ => []
  end.

Definition _parse_optional (p : ArgumentParser) (arg_string : string) : Parsed :=
  match arg_string with
  | EmptyString => positional
  | String c0 rest =>
      if negb (is_dash c0) then positional
      else
        match logging.dict_get String.eqb (_option_string_actions p) arg_string with
        | Some action => optional (Some action) arg_string None
        | None =>
            if String.eqb rest "" then positional
            else
              let by_equals :=
                match split1 "=" arg_string with
                | Some (option_string, explicit_arg) =>
                    match logging.dict_get String.eqb (_option_string_actions p) option_string with
                    | Some action => Some (optional (Some action) option_string (Some explicit_arg))
                    | None => None
                    end
                | None => None
                end in
              match by_equals with
              | Some r => r
              | None =>
                  match _get_option_tuples p arg_string with
                  | _ :: _ :: _ => ambiguous
                  | [(action, option_string, explicit_arg)] =>
                      optional (Some action) option_string explicit_arg
                  | [] =>
                      if negative_number_like arg_string then positional
                      else if contains " " arg_string then positional
                      else optional None arg_string None
                  end
              end
        end
  end.

(** How a string that runs [-h] together with further characters ends,
    in [consume_optional]: each character must be a short option; help is
    printed when the run ends with [-h] or with an option that has its
    argument in the string, and an option at the very end takes the next
    string as its argument. *)
Inductive Chain : Type :=
| chain_help
| chain_needs_argument
| chain_ignored (explicit_arg : string).

Fixpoint help_chain (actions : list (string * ActionKind)) (explicit_arg : string)
  : Chain :=
  match explicit_arg with
  | EmptyString => chain_help
  | String c rest =>
      match logging.dict_get String.eqb actions (String "-" (String c EmptyString)) with
      | None => chain_ignored explicit_arg
      | Some help =>
          if String.eqb rest "" then chain_help else help_chain actions rest
      | Some (store _) =>
          if String.eqb rest "" then chain_needs_argument else chain_help
      end
  end.

(** The argument strings with their pattern letter: ['A'] for an
    argument, ['O'] for an option, ['-'] for the first [--].  [H] is the
    ['O'] of a [-h] that has further characters in its string. *)
Inductive Item : Type :=
| A (arg_string : string)
| O (action : option ActionKind) (arg_string : string) (explicit_arg : option string)
| H (chain : Chain)
| DD.

Definition Dest_eqb (a b : Dest) : bool :=
  match a, b with
  | dest_check_name, dest_check_name
  | dest_log_level, dest_log_level
  | dest_slack_webhook_url, dest_slack_webhook_url
  | dest_slack_channel, dest_slack_channel
  | dest_slack_user, dest_slack_user => true
  | _, _ => false
  end.

(** What the parser does with a command line: a namespace of strings and
    the strings left over, or one of its two exits.  [list_values] is the
    parser's return when it has set the attributes [lists] to the empty
    list [[]] and not to a string: [ns] then holds the other attributes. *)
Inductive Outcome : Type :=
| Success (ns : Namespace) (extras : list string)
| list_values (ns : Namespace) (lists : list Dest) (extras : list string)
| error (message : string)
| help_exit.

(** The first loop of [_parse_known_args]: after [--] every string is an
    argument. *)
Fixpoint classify (p : ArgumentParser) (arg_strings : list string)
  : list Item + string :=
  match arg_strings with
  | [] => inl []
  | s :: rest =>
      if String.eqb s "--" then inl (DD :: map A rest)
      else
        match _parse_optional p s with
        | ambiguous => inr ("ambiguous option: " ++ s)
        | parsed =>
            match classify p rest with
            | inr e => inr e
            | inl items =>
                inl (match parsed with
                     | optional (Some help) (String _ (String c1 _))
                                (Some (String c rest' as explicit_arg)) =>
                         if is_dash c1 then O (Some help) s (Some explicit_arg)
                         else H (help_chain (_option_string_actions p) explicit_arg)
                     | optional action _ explicit_arg => O action s explicit_arg
                     | _ => A s
                     end :: items)
            end
        end
  end.

(** [_get_values] and the [store] action for an option with one argument:
    the first [--] among the argument strings is removed, so the argument
    [--] leaves no string and the attribute is set to the empty list; any
    other argument is the attribute's value. *)
Definition take_action (ns : Namespace) (lists : list Dest) (d : Dest)
           (arg_string : string) : Namespace * list Dest :=
  let others := filter (fun d' => negb (Dest_eqb d d')) lists in
  if String.eqb arg_string "--" then (ns, d :: others)
  else (setattr ns d (Some arg_string), others).

(** The second loop, [consume_optional] included.  An option without an
    explicit argument takes the next string when it is an argument (the
    pattern [A]: [--] is not allowed for an option); an option the parser
    does not know and every string no option takes go to the extras, the
    [--] too. *)
Fixpoint consume_from (items : list Item) (ns : Namespace) (lists : list Dest)
         (extras : list string) : Outcome :=
  match items with
  | [] =>
      match lists with
      | [] => Success ns extras
      | _ => list_values ns lists extras
      end
  | A s :: rest => consume_from rest ns lists (extras ++ [s])%list
  | DD :: rest => consume_from rest ns lists (extras ++ ["--"])%list
  | O None s _ :: rest => consume_from rest ns lists (extras ++ [s])%list
  | O (Some help) _ None :: _ => help_exit
  | O (Some help) _ (Some explicit_arg) :: _ =>
      error ("ignored explicit argument " ++ explicit_arg)
  | H chain_help :: _ => help_exit
  | H (chain_ignored explicit_arg) :: _ =>
      error ("ignored explicit argument " ++ explicit_arg)
  | H chain_needs_argument :: rest =>
      match rest with
      | A _ :: _ => help_exit
      | _ => error "expected one argument"
      end
  | O (Some (store d)) _ (Some explicit_arg) :: rest =>
      let '(ns, lists) := take_action ns lists d explicit_arg in
      consume_from rest ns lists extras
  | O (Some (store d)) _ None :: rest =>
      match rest with
      | A v :: rest' =>
          let '(ns, lists) := take_action ns lists d v in
          consume_from rest' ns lists extras
      | _ => error "expected one argument"
      end
  end.

Definition consume (items : list Item) (ns : Namespace) (extras : list string)
  : Outcome :=
  consume_from items ns [] extras.

(** [parser.parse_known_args(args)] *)
Definition parse_known_args (p : ArgumentParser) (args : list string) : Outcome :=
  match classify p args with
  | inr message => error message
  | inl items => consume items (initial_namespace p) []
  end.

End argparse.

(** ** The process: exceptions, exits and the logger *)

(** [slack_logging_handler.handler.SlackHandler(url, channel=, username=, level=)] *)
Record SlackHandler : Type := mkSlackHandler {
  webhook_url : string;
  channel : option string;
  username : option string;
  level : Z
}.

Inductive Exception : Type :=
| UnittestNagiosWrapperConfigError (message : string).

(** How a computation stops short: an exception is raised; the parser
    reports a usage error ([parser.error]: usage and message on stderr,
    exit status 2); the parser prints its help and exits; or the plugin
    runtime prints its output and exits with a state's code.
    [ListInNamespace] is where this model stops following the script: the
    parser has returned the empty list for the attributes [lists] (an
    option given the argument [--]), and the script goes on with a list
    where it expects a string or [None]. *)
Inductive Abort : Type :=
| Raise (e : Exception)
| UsageError (message : string)
| HelpExit
| Exit (status : Z) (output : string)
| ListInNamespace (lists : list argparse.Dest).

(** What a run does that can be observed besides its end: the command line
    is parsed, a record is logged. *)
Inductive Event : Type :=
| ParseKnownArgs (args : list string)
| Emit (record : logging.LogRecord).

(** The state a run reads and changes: [sys.argv[1:]], the handlers of the
    logger [log], and the events so far. *)
Record Process : Type := mkProcess {
  sys_argv : list string;
  log_handlers : list SlackHandler;
  trace : list Event
}.

Definition M (T : Type) : Type := Process -> (T + Abort) * Process.

Definition ret {T : Type} (x : T) : M T := fun s => (inl x, s).

Definition bind {T U : Type} (c : M T) (k : T -> M U) : M U :=
  fun s =>
    match c s with
    | (inl x, s') => k x s'
    | (inr a, s') => (inr a, s')
    end.

Notation "x <- c ;; k" := (bind c (fun x => k))
  (at level 61, c at next level, right associativity).
Notation "' pat <- c ;; k" := (bind c (fun x => match x with pat => k end))
  (at level 61, pat pattern, c at next level, right associativity).
Notation "c ;;; k" := (bind c (fun _ => k))
  (at level 61, right associativity).

Definition raise {T : Type} (e : Exception) : M T := fun s => (inr (Raise e), s).

Definition sys_exit {T : Type} (status : Z) (output : string) : M T :=
  fun s => (inr (Exit status output), s).

Definition emit (records : list logging.LogRecord) : M unit :=
  fun s => (inl tt, mkProcess (sys_argv s) (log_handlers s)
                              (trace s ++ map Emit records)%list).

(** [log.addHandler(h)]: a handler just built is not among the handlers. *)
Definition addHandler (h : SlackHandler) : M unit :=
  fun s => (inl tt, mkProcess (sys_argv s) (log_handlers s ++ [h])%list (trace s)).

(** [parser.error(message)] *)
Definition parser_error {T : Type} (message : string) : M T :=
  fun s => (inr (UsageError message), s).

(** [parser.parse_known_args()] on [sys.argv[1:]]. *)
Definition parse_known_args (parser : argparse.ArgumentParser)
  : M (argparse.Namespace * list string) :=
  fun s =>
    let s' := mkProcess (sys_argv s) (log_handlers s)
                        (trace s ++ [ParseKnownArgs (sys_argv s)])%list in
    match argparse.parse_known_args parser (sys_argv s) with
    | argparse.Success ns extras => (inl (ns, extras), s')
    | argparse.list_values _ lists _ => (inr (ListInNamespace lists), s')
    | argparse.error message => (inr (UsageError message), s')
    | argparse.help_exit => (inr HelpExit, s')
    end.

(** ** [nagiosplugin.Check] *)

Record Check : Type := mkCheck {
  check_resource : UnittestCaseResource;
  check_context : UnittestCaseContext;
  check_name : option string
}.

(** [Results.__iter__]: by state, most significant first, each state's
    results in the order they were added. *)
Definition by_state (s : ServiceState) (results : list Result) : list Result :=
  filter (fun r => code (state r) =? code s) results.

Definition Results_iter (results : list Result) : list Result :=
  (by_state Unknown results ++ by_state Critical results
   ++ by_state Warn results ++ by_state Ok results)%list.

(** [Results.most_significant_state], [Unknown] for no result at all. *)
Definition most_significant_state (results : list Result) : ServiceState :=
  match Results_iter results with
  | [] => Unknown
  | r :: _ => state r
  end.

(** Every metric the resource yields is evaluated by the context, in order. *)
Fixpoint evaluate_metrics (ctx : UnittestCaseContext) (metrics : list Metric)
  : list Result * list logging.LogRecord :=
  match metrics with
  | [] => ([], [])
  | m :: ms =>
      let '(r, logged) := evaluate ctx m in
      let '(rs, logged') := evaluate_metrics ctx ms in
      (r :: rs, (logged ++ logged')%list)
  end.

(** [check.main()]: evaluate, summarise with [ok] when the overall state is
    [Ok] and with [problem] otherwise, and exit with the state's code.
    This is the run in which [evaluate] returns for every metric: the
    class loads and the check name formats.  An exception that escapes
    [evaluate] would end the real run at the guard, with the code of
    [Unknown]; [evaluate] being a function here, that end is not shown. *)
Definition Check_main (check : Check) : M unit :=
  let '(results, logged) :=
    evaluate_metrics (check_context check) (probe (check_resource check)) in
  emit logged ;;;
  let st := most_significant_state results in
  let '(summary_str, logged) :=
    match st with
    | Ok => UnittestCaseResultsSummary.ok (Results_iter results)
    | _ => UnittestCaseResultsSummary.problem (Results_iter results)
    end in
  emit logged ;;;
  sys_exit (code st) summary_str.

(** ** The entry point *)

Definition LOG_LEVEL_NAMES : list string := map fst logging._nameToLevel.
Definition LOG_LEVEL_NAMES_STR : string := String.concat ", " LOG_LEVEL_NAMES.
Definition LOG_LEVEL_NAMES_OPT_STR : string := String.concat "|" LOG_LEVEL_NAMES.

Section EntryPoint.

(** [fmt_metric.format(name=..., value=..., ...)] of
    [nagiosplugin.Context.describe]: the check name with its replacement
    fields filled from the metric. *)
Variable format : string -> Metric -> string.

Definition Context_describe (fmt_metric : option string) (m : Metric) : string :=
  match fmt_metric with
  | Some f => format f m
  | None => "None"
  end.

(** Lines 148-194: the parser with its five [add_argument] calls, the
    defaults as the script passes them.  The usage, description and help
    texts only feed what argparse prints and are left out. *)
Definition script_parser (unittestcase_class : TestCaseClass)
           (log_level_s slack_channel slack_user : option string)
  : argparse.ArgumentParser :=
  let parser := argparse.mkArgumentParser [argparse.help_action] in
  let parser := argparse.add_argument parser "-n" "--test-name"
                  argparse.dest_check_name (Some (cls_name unittestcase_class)) in
  let parser := argparse.add_argument parser "-l" "--slack-log-level"
                  argparse.dest_log_level log_level_s in
  let parser := argparse.add_argument parser "-s" "--slack-webhook-url"
                  argparse.dest_slack_webhook_url None in
  let parser := argparse.add_argument parser "-c" "--slack-channel"
                  argparse.dest_slack_channel slack_channel in
  let parser := argparse.add_argument parser "-u" "--slack-user"
                  argparse.dest_slack_user slack_user in
  parser.

(** [nagios_script] up to the line before [check.main()]: the check it
    builds, with the handler attached on the way.  The [check_name]
    parameter of the function is not used by its body and is left out. *)
Definition nagios_script_setup (unittestcase_class : TestCaseClass)
           (log_level : option Z)
           (slack_webhook_url slack_channel slack_user : option string)
  : M Check :=
  let log_level_s := logging.dict_get_opt Z.eqb logging._levelToName log_level in
  match log_level with
  | None =>
      raise (UnittestNagiosWrapperConfigError
               ("Unrecognised default log-level set.  Use one of: "
                ++ LOG_LEVEL_NAMES_STR))
  | Some _ => ret tt
  end ;;;
  let parser := script_parser unittestcase_class log_level_s
                              slack_channel slack_user in
  '(parsed_args, selected_test_names) <- parse_known_args parser ;;
  let slack_webhook_url :=
    match argparse.slack_webhook_url parsed_args with
    | Some v => Some v
    | None => slack_webhook_url
    end in
  let slack_channel :=
    match argparse.slack_channel parsed_args with
    | Some v => Some v
    | None => slack_channel
    end in
  let slack_user :=
    match argparse.slack_user parsed_args with
    | Some v => Some v
    | None => slack_user
    end in
  match slack_webhook_url with
  | Some url =>
      match logging.dict_get_opt String.eqb logging._nameToLevel
                                 (argparse.log_level parsed_args) with
      | None =>
          parser_error ("Unrecognised log-level.  Use one of: "
                        ++ LOG_LEVEL_NAMES_STR)
      | Some log_level =>
          addHandler (mkSlackHandler url slack_channel slack_user log_level)
      end
  | None => ret tt
  end ;;;
  let selected_test_names :=
    if (Z.of_nat (length selected_test_names) =? 0)
    then [cls_name unittestcase_class]
    else selected_test_names in
  let nagios_resource := mkUnittestCaseResource selected_test_names in
  let nagios_context :=
    mkUnittestCaseContext "UnittestCaseContext"
      (Context_describe (argparse.check_name parsed_args))
      unittestcase_class in
  ret (mkCheck nagios_resource nagios_context
               (argparse.check_name parsed_args)).

(** The whole body: the check is built, then run. *)
Definition nagios_script_body (unittestcase_class : TestCaseClass)
           (log_level : option Z)
           (slack_webhook_url slack_channel slack_user : option string)
  : M unit :=
  check <- nagios_script_setup unittestcase_class log_level
             slack_webhook_url slack_channel slack_user ;;
  Check_main check.

(** [@nagiosplugin.guarded]: an exception that escapes the body ends the
    process with the [Unknown] code; an exit passes through. *)
Definition guarded (body : M unit) : M unit :=
  fun s =>
    match body s with
    | (inr (Raise (UnittestNagiosWrapperConfigError message)), s') =>
        (inr (Exit (code Unknown) message), s')
    | r => r
    end.

Definition nagios_script (unittestcase_class : TestCaseClass)
           (log_level : option Z)
           (slack_webhook_url slack_channel slack_user : option string)
  : M unit :=
  guarded (nagios_script_body unittestcase_class log_level
             slack_webhook_url slack_channel slack_user).

End EntryPoint.


(** ** The specification's vocabulary *)

(** The counts [evaluate] takes from a [TestResult]. *)
Definition n_failures (r : TestResult) : Z := Z.of_nat (length (failures r)).
Definition n_errors (r : TestResult) : Z := Z.of_nat (length (errors r)).
Definition n_problems (r : TestResult) : Z := n_failures r + n_errors r.

(** The status rule in the specification's words: [Ok] for no problem,
    [Critical] when the problems are as many as the tests run, [Warn]
    otherwise. *)
Definition status_of_counts (failures errors tests_run : Z) : ServiceState :=
  let problems := failures + errors in
  if problems =? 0 then Ok
  else if problems =? tests_run then Critical
  else Warn.

(** The names the hint lists: a name for each entry the framework put in
    [errors], then one for each entry in [failures]. *)
Definition problem_names (r : TestResult) : list string :=
  (map (fun p => str (fst p)) (errors r)
   ++ map (fun p => str (fst p)) (failures r))%list.

(** A test passes when it reports nothing. *)
Definition passes (t : TestCase) : Prop := method_reports (test_method t) = [].

(** The tests an identifier stands for, in the specification's words: the
    whole case for the name of the class, one test for [Class.method]. *)
Definition tests_named (c : TestCaseClass) (identifier : string) : list TestCase :=
  if String.eqb identifier (cls_name c) then loadTestsFromTestCase c
  else filter (fun t => String.eqb identifier
                          (cls_name c ++ "." ++ method_name (test_method t)))
              (loadTestsFromTestCase c).


(** The values the command line alone gives: the namespace of the script's
    parser when no default is declared. *)
Definition command_line (unittestcase_class : TestCaseClass) (args : list string)
  : argparse.Outcome :=
  match argparse.classify (script_parser unittestcase_class None None None) args with
  | inr message => argparse.error message
  | inl items =>
      argparse.consume items (argparse.mkNamespace None None None None None) []
  end.

(** Precedence: the command line's value when there is one, the default
    otherwise. *)
Definition resolve (flag default : option string) : option string :=
  match flag with
  | Some v => Some v
  | None => default
  end.

(** The two records the loops log for one entry. *)
Definition records_of (p : Test * string) : list logging.LogRecord :=
  [logging.error (str (fst p)); logging.debug "" (Some (snd p))].

(** A namespace over defaults: every attribute the command line gave, and
    the default for the others. *)
Definition merge (cli defaults : argparse.Namespace) : argparse.Namespace :=
  argparse.mkNamespace
    (resolve (argparse.check_name cli) (argparse.check_name defaults))
    (resolve (argparse.log_level cli) (argparse.log_level defaults))
    (resolve (argparse.slack_webhook_url cli) (argparse.slack_webhook_url defaults))
    (resolve (argparse.slack_channel cli) (argparse.slack_channel defaults))
    (resolve (argparse.slack_user cli) (argparse.slack_user defaults)).

Definition merge_outcome (o : argparse.Outcome) (defaults : argparse.Namespace)
  : argparse.Outcome :=
  match o with
  | argparse.Success ns extras => argparse.Success (merge ns defaults) extras
  | argparse.list_values ns lists extras =>
      argparse.list_values (merge ns defaults) lists extras
  | o => o
  end.

(** The defaults the script declares for its parser. *)
Definition script_defaults (unittestcase_class : TestCaseClass)
           (log_level_s slack_channel slack_user : option string) : argparse.Namespace :=
  argparse.mkNamespace (Some (cls_name unittestcase_class)) log_level_s None
                       slack_channel slack_user.

(** The process once [parse_known_args] has read the command line. *)
Definition after_parse (s : Process) : Process :=
  mkProcess (sys_argv s) (log_handlers s)
            (trace s ++ [ParseKnownArgs (sys_argv s)])%list.

Definition with_handler (s : Process) (h : SlackHandler) : Process :=
  mkProcess (sys_argv s) (log_handlers s ++ [h])%list (trace s).

Definition unrecognised_log_level : string :=
  "Unrecognised log-level.  Use one of: " ++ LOG_LEVEL_NAMES_STR.

(** The check the script builds from what the command line gave. *)
Definition check_of (format : string -> Metric -> string) (c : TestCaseClass)
           (cli : argparse.Namespace) (extras : list string) : Check :=
  let check_name := resolve (argparse.check_name cli) (Some (cls_name c)) in
  mkCheck
    (mkUnittestCaseResource
       (match extras with [] => [cls_name c] | _ => extras end))
    (mkUnittestCaseContext "UnittestCaseContext"
                           (Context_describe format check_name) c)
    check_name.

(** The tracebacks the records of a log carry, in order. *)
Definition attachments (logged : list logging.LogRecord) : list string :=
  flat_map (fun r => match logging.slack_exception_attachment r with
                     | Some tb => [tb]
                     | None => []
                     end) logged.

(** The messages a log holds at one level, in order. *)
Definition messages_at (lvl : Z) (logged : list logging.LogRecord) : list string :=
  map logging.msg (filter (fun r => logging.levelno r =? lvl) logged).

(** The levels [logging._nameToLevel] maps a name to. *)
Definition standard_levels : list Z :=
  [logging.CRITICAL; logging.ERROR; logging.WARNING; logging.INFO;
   logging.DEBUG; logging.NOTSET].

(** ** Inputs for the worked examples *)

Module Examples.

(** A case with one passing test, one failing test and one test in error. *)
Definition MixedCase : TestCaseClass :=
  mkTestCaseClass "tests" "MixedCase"
    [ mkMethod "setUp" [];
      mkMethod "test_c" [Error "Traceback c"];
      mkMethod "test_b" [Failure "Traceback b"];
      mkMethod "test_a" [] ].

(** A case whose two tests pass. *)
Definition PassingCase : TestCaseClass :=
  mkTestCaseClass "tests" "PassingCase"
    [ mkMethod "test_one" []; mkMethod "test_two" [] ].

(** A case whose two tests fail. *)
Definition FailingCase : TestCaseClass :=
  mkTestCaseClass "tests" "FailingCase"
    [ mkMethod "test_one" [Failure "Traceback 1"];
      mkMethod "test_two" [Error "Traceback 2"] ].

Definition context_of (c : TestCaseClass) : UnittestCaseContext :=
  mkUnittestCaseContext "UnittestCaseContext" (fun _ => cls_name c) c.

Definition metric_of (test_name : string) : Metric :=
  mkMetric test_name true "UnittestCaseContext".

(** A check name without replacement fields formats to itself. *)
Definition plain_format (fmt_metric : string) (_ : Metric) : string := fmt_metric.

Definition process_of (args : list string) : Process := mkProcess args [] [].

End Examples.

Module MoreExamples.

(** A case without any test method. *)
Definition EmptyCase : TestCaseClass :=
  mkTestCaseClass "tests" "EmptyCase" [ mkMethod "setUp" []; mkMethod "helper" [] ].

(** A case whose only test fails and whose [tearDown] then raises: the test
    is recorded once as a failure and once as an error. *)
Definition TwiceCase : TestCaseClass :=
  mkTestCaseClass "tests" "TwiceCase"
    [ mkMethod "test_only" [Failure "Traceback body"; Error "Traceback tearDown"] ].

(** A case whose two tests pass and whose [tearDownClass] raises. *)
Definition TearDownClassCase : TestCaseClass :=
  mkClass "tests" "TearDownClassCase"
    [ mkMethod "test_one" []; mkMethod "test_two" [] ]
    set_up_returns set_up_returns ["Traceback tearDownClass"] [].

(** A case whose [setUpClass] raises: its tests do not run. *)
Definition SetUpClassCase : TestCaseClass :=
  mkClass "tests" "SetUpClassCase"
    [ mkMethod "test_one" []; mkMethod "test_two" [Failure "Traceback 2"] ]
    set_up_returns (set_up_raises ["Traceback setUpClass"]) [] [].

(** A case whose one test has two failing subtests. *)
Definition SubTestCase : TestCaseClass :=
  mkTestCaseClass "tests" "SubTestCase"
    [ mkMethod "test_each"
        [SubTestFailure "(i=1)" "Traceback 1"; SubTestFailure "(i=2)" "Traceback 2"] ].

End MoreExamples.

(** * Properties *)

(** ** The two loops of [evaluate] *)

Lemma fold_log_problem (l : list (Test * string)) :
  forall hint_list logged,
    fold_left log_problem l (hint_list, logged)
    = ((hint_list ++ map (fun p => str (fst p)) l)%list,
       (logged ++ flat_map records_of l)%list).
Proof.
  induction l as [|p l IH]; intros hint_list logged; simpl.
  - now rewrite !app_nil_r.
  - rewrite IH. unfold records_of at 2. simpl.
    now rewrite <- !app_assoc.
Qed.

(** [evaluate_result] with its loops solved. *)
Lemma evaluate_result_eq (self : UnittestCaseContext) (m : Metric) (r : TestResult) :
  evaluate_result self m r
  = if 0 <? n_problems r then
      (mkResult (if testsRun r =? n_problems r then Critical else Warn)
                ((if testsRun r =? n_problems r
                  then "All tests failed: " else "Some tests failed: ")
                 ++ String.concat ", " (problem_names r))
                m,
       (logging.critical (describe self m ++ " failed")
        :: flat_map records_of (errors r) ++ flat_map records_of (failures r))%list)
    else (mkResult Ok (name m ++ " test passed") m, []).
Proof.
  unfold evaluate_result.
  fold (n_failures r) (n_errors r). fold (n_problems r).
  destruct (0 <? n_problems r); [|reflexivity].
  destruct (testsRun r =? n_problems r); cbv zeta iota beta;
    rewrite fold_log_problem; cbv iota beta;
    rewrite fold_log_problem; unfold problem_names; reflexivity.
Qed.

Lemma n_problems_nonneg (r : TestResult) : 0 <= n_problems r.
Proof. unfold n_problems, n_failures, n_errors. lia. Qed.

(** ** The status evaluator *)

Lemma status_of_counts_cases (failures errors tests_run : Z) :
  (failures + errors = 0 -> status_of_counts failures errors tests_run = Ok)
  /\ (failures + errors <> 0 -> failures + errors = tests_run ->
      status_of_counts failures errors tests_run = Critical)
  /\ (failures + errors <> 0 -> failures + errors <> tests_run ->
      status_of_counts failures errors tests_run = Warn)
  /\ (0 < failures + errors < tests_run ->
      status_of_counts failures errors tests_run = Warn).
Proof.
  unfold status_of_counts. cbv zeta.
  destruct (Z.eqb_spec (failures + errors) 0) as [E0|E0];
    destruct (Z.eqb_spec (failures + errors) tests_run) as [E1|E1];
    repeat split; intros; try reflexivity; try lia; try contradiction.
Qed.

Lemma evaluate_result_state (self : UnittestCaseContext) (m : Metric) (r : TestResult) :
  state (fst (evaluate_result self m r))
  = status_of_counts (n_failures r) (n_errors r) (testsRun r).
Proof.
  rewrite evaluate_result_eq. unfold status_of_counts. cbv zeta.
  fold (n_problems r). pose proof (n_problems_nonneg r) as Hn.
  destruct (Z.ltb_spec 0 (n_problems r)) as [Hpos|Hzero];
    destruct (Z.eqb_spec (n_problems r) 0) as [E0|E0]; try lia; simpl.
  - rewrite (Z.eqb_sym (testsRun r)). now destruct (n_problems r =? testsRun r).
  - reflexivity.
Qed.

(** C1: the status [evaluate] returns is determined by the counts of the
    test run: it is the status the specification's rule gives for the
    numbers of failures, of errors and of tests run.  It is [Ok] when
    failures + errors is 0, [Critical] when it is not 0 and equals the
    number of tests run, and [Warn] in every other case.  This holds for
    every [TestResult] the framework may hand over, and [evaluate] applies
    it to the result of running the context's test case. *)
Theorem evaluate_status_by_counts (self : UnittestCaseContext) (m : Metric) :
  (forall r : TestResult,
      let problems := Z.of_nat (length (failures r)) + Z.of_nat (length (errors r)) in
      let status := state (fst (evaluate_result self m r)) in
      status = status_of_counts (Z.of_nat (length (failures r)))
                                (Z.of_nat (length (errors r))) (testsRun r)
      /\ (problems = 0 -> status = Ok)
      /\ (problems <> 0 -> problems = testsRun r -> status = Critical)
      /\ (problems <> 0 -> problems <> testsRun r -> status = Warn))
  /\ evaluate self m
     = evaluate_result self m
         (TestSuite_run (loadTestsFromTestCase (_unittestcase_class self))
                        TestResult_new).
Proof.
  split; [|reflexivity].
  intros r. cbv zeta. rewrite evaluate_result_state.
  fold (n_failures r) (n_errors r).
  destruct (status_of_counts_cases (n_failures r) (n_errors r) (testsRun r))
    as (H0 & H1 & H2 & _).
  auto.
Qed.

Lemma evaluate_status_by_counts_witness :
  state (fst (evaluate (Examples.context_of Examples.PassingCase)
                       (Examples.metric_of "PassingCase"))) = Ok
  /\ state (fst (evaluate (Examples.context_of Examples.FailingCase)
                          (Examples.metric_of "FailingCase"))) = Critical
  /\ state (fst (evaluate (Examples.context_of Examples.MixedCase)
                          (Examples.metric_of "MixedCase"))) = Warn.
Proof.
  pose (run := fun c => TestSuite_run (loadTestsFromTestCase c) TestResult_new).
  pose (H := fun c => proj1 (evaluate_status_by_counts
                               (Examples.context_of c)
                               (Examples.metric_of (cls_name c))) (run c)).
  split; [|split].
  - exact (proj1 (proj2 (H Examples.PassingCase)) eq_refl).
  - refine (proj1 (proj2 (proj2 (H Examples.FailingCase))) _ eq_refl).
    vm_compute. discriminate.
  - refine (proj2 (proj2 (proj2 (H Examples.MixedCase))) _ _);
      vm_compute; discriminate.
Defined.




(** C10: when at least one problem is recorded, the hint is its prefix
    followed by the names of the entries of [errors], in the order the
    framework recorded them, then the names of the entries of [failures],
    in their order, joined by [", "]. *)
Theorem evaluate_hint_order (self : UnittestCaseContext) (m : Metric) (r : TestResult) :
  0 < Z.of_nat (length (failures r)) + Z.of_nat (length (errors r)) ->
  exists prefix : string,
    (prefix = "All tests failed: " \/ prefix = "Some tests failed: ")
    /\ hint (fst (evaluate_result self m r))
       = prefix ++ String.concat ", "
                     (map (fun e => str (fst e)) (errors r)
                      ++ map (fun f => str (fst f)) (failures r)).
Proof.
  intros Hpos. rewrite evaluate_result_eq.
  fold (n_failures r) (n_errors r) in Hpos. fold (n_problems r) in Hpos.
  apply Z.ltb_lt in Hpos. rewrite Hpos.
  destruct (testsRun r =? n_problems r); eexists; (split; [|reflexivity]); auto.
Qed.

Lemma evaluate_hint_order_witness :
  exists prefix : string,
    (prefix = "All tests failed: " \/ prefix = "Some tests failed: ")
    /\ hint (fst (evaluate_result
                    (Examples.context_of Examples.MixedCase)
                    (Examples.metric_of "MixedCase")
                    (TestSuite_run (loadTestsFromTestCase Examples.MixedCase)
                                   TestResult_new)))
       = prefix ++ "test_c (tests.MixedCase), test_b (tests.MixedCase)".
Proof.
  apply (evaluate_hint_order
           (Examples.context_of Examples.MixedCase)
           (Examples.metric_of "MixedCase")
           (TestSuite_run (loadTestsFromTestCase Examples.MixedCase) TestResult_new)).
  vm_compute. reflexivity.
Defined.

(** C5, as the code has it: when at least one failure or error is
    recorded, the hint begins with ["All tests failed: "] when the entries
    recorded in [failures] and [errors] are as many as the tests run, and
    with ["Some tests failed: "] otherwise; it goes on with one name for
    every recorded entry, those of [errors] first, joined by [", "].  A
    name is listed exactly when it is the name of a recorded entry, so a
    test that passed, having no entry, is not listed for itself. *)
Theorem evaluate_hint_problems (self : UnittestCaseContext) (m : Metric)
        (r : TestResult) :
  0 < n_problems r ->
  hint (fst (evaluate_result self m r))
  = (if testsRun r =? n_problems r
     then "All tests failed: " else "Some tests failed: ")
    ++ String.concat ", " (problem_names r)
  /\ Z.of_nat (length (problem_names r)) = n_problems r
  /\ (forall s, In s (problem_names r)
                <-> exists e, (In e (errors r) \/ In e (failures r))
                              /\ str (fst e) = s).
Proof.
  intros Hpos. rewrite evaluate_result_eq.
  apply Z.ltb_lt in Hpos. rewrite Hpos. cbn [fst hint].
  split; [reflexivity|]. split.
  - unfold problem_names, n_problems, n_failures, n_errors.
    rewrite length_app, !length_map. lia.
  - intros s. unfold problem_names. rewrite in_app_iff, !in_map_iff. split.
    + intros [(e & Hs & Hin) | (e & Hs & Hin)]; exists e; auto.
    + intros (e & [Hin | Hin] & Hs); [left | right]; exists e; auto.
Qed.

Lemma evaluate_hint_problems_witness :
  let r := TestSuite_run (loadTestsFromTestCase Examples.MixedCase) TestResult_new in
  hint (fst (evaluate_result (Examples.context_of Examples.MixedCase)
                             (Examples.metric_of "MixedCase") r))
  = "Some tests failed: test_c (tests.MixedCase), test_b (tests.MixedCase)"
  /\ Z.of_nat (length (problem_names r)) = 2
  /\ (forall s, In s (problem_names r)
                <-> exists e, (In e (errors r) \/ In e (failures r))
                              /\ str (fst e) = s).
Proof.
  apply (evaluate_hint_problems
           (Examples.context_of Examples.MixedCase)
           (Examples.metric_of "MixedCase")
           (TestSuite_run (loadTestsFromTestCase Examples.MixedCase) TestResult_new)).
  vm_compute. reflexivity.
Defined.

(** C5, as the claim states it, fails: the one test of [TwiceCase] fails in
    its body and its [tearDown] raises, so every executed test failed or
    errored; one test was run and two entries were recorded, and the hint
    begins with ["Some tests failed: "], not with ["All tests failed: "]. *)
Lemma evaluate_hint_all_failed_says_some :
  let suite := loadTestsFromTestCase MoreExamples.TwiceCase in
  let result := TestSuite_run suite TestResult_new in
  let r := fst (evaluate (Examples.context_of MoreExamples.TwiceCase)
                         (Examples.metric_of "TwiceCase")) in
  (forall t, In t suite -> ~ passes t)
  /\ testsRun result = 1
  /\ hint r
     = "Some tests failed: test_only (tests.TwiceCase), test_only (tests.TwiceCase)"
  /\ String.prefix "All tests failed: " (hint r) = false.
Proof.
  cbv zeta. split; [|repeat split].
  intros t [<- | []]. discriminate.
Qed.

(** The test run does not depend on the identifier under evaluation: two
    identifiers give the same status, and the same hint and log records
    unless every test passes. *)
Lemma evaluate_ignores_identifier (self : UnittestCaseContext) (m1 m2 : Metric) :
  state (fst (evaluate self m1)) = state (fst (evaluate self m2))
  /\ (state (fst (evaluate self m1)) <> Ok ->
      hint (fst (evaluate self m1)) = hint (fst (evaluate self m2))).
Proof.
  unfold evaluate. rewrite !evaluate_result_eq.
  destruct (0 <? n_problems _); simpl; [auto | split; [reflexivity | contradiction]].
Qed.

(** C2: the code runs the whole test case whatever the identifier.  For the
    case [MixedCase] (tests [test_a] passing, [test_b] failing, [test_c] in
    error) and the identifier [MixedCase.test_a], the identifier names the
    one test [test_a], which passes; [evaluate] runs all three tests and
    returns [Warn] with the other two tests in its hint, as it does for the
    identifier [MixedCase]. *)
Theorem evaluate_runs_whole_case :
  let self := Examples.context_of Examples.MixedCase in
  let one := Examples.metric_of "MixedCase.test_a" in
  let whole := Examples.metric_of "MixedCase" in
  map str (tests_named Examples.MixedCase "MixedCase.test_a")
  = ["test_a (tests.MixedCase)"]
  /\ (forall t, In t (tests_named Examples.MixedCase "MixedCase.test_a") -> passes t)
  /\ testsRun (TestSuite_run (loadTestsFromTestCase (_unittestcase_class self))
                             TestResult_new) = 3
  /\ fst (evaluate self one)
     = mkResult Warn
         "Some tests failed: test_c (tests.MixedCase), test_b (tests.MixedCase)" one
  /\ fst (evaluate self whole)
     = mkResult Warn
         "Some tests failed: test_c (tests.MixedCase), test_b (tests.MixedCase)" whole.
Proof.
  cbv zeta. repeat split; try reflexivity.
  intros t [<- | []]. reflexivity.
Qed.

(** ** The reporter *)

(** C9: on every list of results, [ok] and [problem] return the same text
    and log the same record: the hints of the results joined by [", "],
    whatever the states of the results. *)
Theorem summary_ok_problem_same (results : list Result) :
  UnittestCaseResultsSummary.ok results = UnittestCaseResultsSummary.problem results
  /\ fst (UnittestCaseResultsSummary.ok results)
     = String.concat ", " (map hint results)
  /\ snd (UnittestCaseResultsSummary.ok results)
     = [logging.info (String.concat ", " (map hint results))].
Proof. repeat split. Qed.

(** ** The parser: defaults and the command line *)

Lemma merge_setattr (ns defaults : argparse.Namespace) (d : argparse.Dest) (v : string) :
  merge (argparse.setattr ns d (Some v)) defaults
  = argparse.setattr (merge ns defaults) d (Some v).
Proof. destruct d; reflexivity. Qed.

Lemma merge_empty (defaults : argparse.Namespace) :
  merge (argparse.mkNamespace None None None None None) defaults = defaults.
Proof. destruct defaults; reflexivity. Qed.

Lemma take_action_merge (defaults ns : argparse.Namespace)
      (lists : list argparse.Dest) (d : argparse.Dest) (v : string) :
  argparse.take_action (merge ns defaults) lists d v
  = (merge (fst (argparse.take_action ns lists d v)) defaults,
     snd (argparse.take_action ns lists d v)).
Proof.
  unfold argparse.take_action. destruct (String.eqb v "--"); cbn [fst snd].
  - reflexivity.
  - now rewrite merge_setattr.
Qed.

(** Options given on the command line are stored over the defaults. *)
Lemma consume_merge (defaults : argparse.Namespace) (n : nat) :
  forall items ns lists extras,
    (length items <= n)%nat ->
    argparse.consume_from items (merge ns defaults) lists extras
    = merge_outcome (argparse.consume_from items ns lists extras) defaults.
Proof.
  induction n as [|n IH]; intros items ns lists extras Hlen.
  - destruct items; [|simpl in Hlen; lia]. simpl. now destruct lists.
  - destruct items as [|i rest]; [simpl; now destruct lists|]. simpl in Hlen.
    destruct i as [s | [[d|] |] s [e|] | [ | |e] | ]; simpl;
      try reflexivity; try (apply IH; lia).
    + rewrite take_action_merge.
      destruct (argparse.take_action ns lists d e) as [ns' lists'].
      apply IH. lia.
    + destruct rest as [|[v | a s' e' | ch | ] rest']; try reflexivity.
      simpl in Hlen. rewrite take_action_merge.
      destruct (argparse.take_action ns lists d v) as [ns' lists'].
      apply IH. lia.
    + destruct rest as [|[v | a s' e' | ch | ] rest']; reflexivity.
Qed.

(** How a string is classified depends on the option strings only. *)
Lemma classify_ext (p q : argparse.ArgumentParser) (args : list string) :
  argparse._option_string_actions p = argparse._option_string_actions q ->
  argparse.classify p args = argparse.classify q args.
Proof.
  intros H.
  assert (Hopt : forall s, argparse._parse_optional p s = argparse._parse_optional q s).
  { intros s. unfold argparse._parse_optional, argparse._get_option_tuples.
    now rewrite H. }
  induction args as [|s rest IH]; simpl; [reflexivity|].
  now rewrite Hopt, IH, H.
Qed.

(** The script's parser gives what the command line gives, over the
    defaults the script declares. *)
Lemma parse_known_args_defaults (c : TestCaseClass)
      (log_level_s slack_channel slack_user : option string) (args : list string) :
  argparse.parse_known_args (script_parser c log_level_s slack_channel slack_user) args
  = merge_outcome (command_line c args)
                  (script_defaults c log_level_s slack_channel slack_user).
Proof.
  unfold argparse.parse_known_args, command_line.
  rewrite (classify_ext (script_parser c log_level_s slack_channel slack_user)
                        (script_parser c None None None) args eq_refl).
  destruct (argparse.classify (script_parser c None None None) args) as [items|e];
    [|reflexivity].
  unfold argparse.consume.
  rewrite <- (consume_merge _ (length items)) by lia.
  now rewrite merge_empty.
Qed.

(** ** The entry point *)

Section EntryPointProperties.

Variable format : string -> Metric -> string.

(** [nagios_script_setup] for a default log-level that is not [None],
    case by case. *)
Lemma nagios_script_setup_eq (c : TestCaseClass) (lv : Z)
      (url ch user : option string) (s : Process) :
  nagios_script_setup format c (Some lv) url ch user s
  = match command_line c (sys_argv s) with
    | argparse.error message => (inr (UsageError message), after_parse s)
    | argparse.help_exit => (inr HelpExit, after_parse s)
    | argparse.list_values _ lists _ => (inr (ListInNamespace lists), after_parse s)
    | argparse.Success cli extras =>
        match resolve (argparse.slack_webhook_url cli) url with
        | None => (inl (check_of format c cli extras), after_parse s)
        | Some u =>
            match logging.dict_get_opt String.eqb logging._nameToLevel
                    (resolve (argparse.log_level cli)
                             (logging.dict_get Z.eqb logging._levelToName lv)) with
            | None => (inr (UsageError unrecognised_log_level), after_parse s)
            | Some lvl =>
                (inl (check_of format c cli extras),
                 with_handler (after_parse s)
                   (mkSlackHandler u (resolve (argparse.slack_channel cli) ch)
                                   (resolve (argparse.slack_user cli) user) lvl))
            end
        end
    end.
Proof.
  unfold nagios_script_setup, bind, parse_known_args, raise, ret.
  rewrite parse_known_args_defaults.
  destruct (command_line c (sys_argv s)) as [cli extras|cli lists extras| |];
    try reflexivity.
  unfold merge_outcome, merge, script_defaults, check_of.
  cbn [argparse.slack_webhook_url argparse.slack_channel argparse.slack_user
       argparse.log_level argparse.check_name logging.dict_get_opt].
  assert (Hsel : (if Z.of_nat (length extras) =? 0 then [cls_name c] else extras)
                 = match extras with [] => [cls_name c] | _ => extras end)
    by (destruct extras; reflexivity).
  rewrite Hsel.
  destruct cli as [cn ll wu sc su]; cbn [argparse.slack_webhook_url
    argparse.slack_channel argparse.slack_user argparse.log_level
    argparse.check_name resolve].
  destruct wu as [u|]; [|destruct url as [u|]]; cbn [resolve]; try reflexivity;
    (destruct (logging.dict_get_opt String.eqb logging._nameToLevel _);
     [|reflexivity]);
    destruct sc, su, ch, user; reflexivity.
Qed.

(** The default log-level is rejected exactly when it is [None], and then
    before anything else happens. *)
Lemma nagios_script_setup_None (c : TestCaseClass)
      (url ch user : option string) (s : Process) :
  nagios_script_setup format c None url ch user s
  = (inr (Raise (UnittestNagiosWrapperConfigError
                   ("Unrecognised default log-level set.  Use one of: "
                    ++ LOG_LEVEL_NAMES_STR))), s).
Proof. reflexivity. Qed.

Lemma nagios_script_setup_no_raise (c : TestCaseClass) (lv : Z)
      (url ch user : option string) (s : Process) (e : Exception) :
  fst (nagios_script_setup format c (Some lv) url ch user s) <> inr (Raise e).
Proof.
  rewrite nagios_script_setup_eq.
  destruct (command_line c (sys_argv s)) as [cli extras|cli lists extras| |];
    try discriminate.
  destruct (resolve (argparse.slack_webhook_url cli) url); try discriminate.
  destruct (logging.dict_get_opt _ _ _); discriminate.
Qed.

(** Running the check ends the process with the code of the overall
    state, and leaves the handlers of the logger as they are. *)
Lemma Check_main_exits (check : Check) (s : Process) :
  exists status output s',
    Check_main check s = (inr (Exit status output), s')
    /\ log_handlers s' = log_handlers s
    /\ sys_argv s' = sys_argv s.
Proof.
  unfold Check_main.
  destruct (evaluate_metrics (check_context check) (probe (check_resource check)))
    as [results logged].
  destruct (most_significant_state results);
    unfold UnittestCaseResultsSummary.ok, UnittestCaseResultsSummary.problem,
      bind, emit, sys_exit; cbn;
    do 3 eexists; repeat split.
Qed.

(** The whole script: what its set-up leaves, then the exit of the check. *)
Lemma nagios_script_after_setup (c : TestCaseClass) (log_level : option Z)
      (url ch user : option string) (s s1 : Process) (check : Check) :
  nagios_script_setup format c log_level url ch user s = (inl check, s1) ->
  exists status output s',
    nagios_script format c log_level url ch user s = (inr (Exit status output), s')
    /\ log_handlers s' = log_handlers s1.
Proof.
  intros Hsetup.
  destruct (Check_main_exits check s1) as (status & output & s' & Hmain & Hh & _).
  exists status, output, s'.
  unfold nagios_script, guarded, nagios_script_body, bind.
  rewrite Hsetup, Hmain. auto.
Qed.


End EntryPointProperties.

(** C3: the code does not reject a default log-level that is not a
    recognised level.  [42] is no key of [logging._levelToName]; with it and
    an empty command line the set-up raises nothing: the command line is
    parsed, the check is built and the script exits with the result of the
    tests.  The exception is raised for the default [None] only. *)
Theorem unrecognised_default_log_level_not_rejected :
  let run := nagios_script_setup Examples.plain_format Examples.MixedCase
               (Some 42) None None None (Examples.process_of []) in
  logging.dict_get Z.eqb logging._levelToName 42 = None
  /\ fst run = inl (check_of Examples.plain_format Examples.MixedCase
                             (argparse.mkNamespace None None None None None) [])
  /\ trace (snd run) = [ParseKnownArgs []]
  /\ fst (nagios_script Examples.plain_format Examples.MixedCase
            (Some 42) None None None (Examples.process_of []))
     = inr (Exit 1 "Some tests failed: test_c (tests.MixedCase), test_b (tests.MixedCase)")
  /\ nagios_script_setup Examples.plain_format Examples.MixedCase
       None None None None (Examples.process_of [])
     = (inr (Raise (UnittestNagiosWrapperConfigError
                      ("Unrecognised default log-level set.  Use one of: "
                       ++ LOG_LEVEL_NAMES_STR))),
        Examples.process_of []).
Proof. cbv zeta. repeat split; reflexivity. Qed.




(** C7, as the code has it: when the parser leaves no string of the
    command line over (no positional argument, no option it does not know
    and no [--]), the resource the script builds holds exactly the name of
    the test-case class, and the fact enumerator yields the one metric of
    that name; with no webhook URL resolved the script always gets that
    far. *)
Theorem default_selection_is_whole_case
        (format : string -> Metric -> string) (c : TestCaseClass) (lv : Z)
        (url ch user : option string) (s : Process) (cli : argparse.Namespace) :
  command_line c (sys_argv s) = argparse.Success cli [] ->
  (forall check s',
      nagios_script_setup format c (Some lv) url ch user s = (inl check, s') ->
      test_names (check_resource check) = [cls_name c]
      /\ probe (check_resource check)
         = [mkMetric (cls_name c) true "UnittestCaseContext"])
  /\ (resolve (argparse.slack_webhook_url cli) url = None ->
      exists check s',
        nagios_script_setup format c (Some lv) url ch user s = (inl check, s')).
Proof.
  intros Hcli. rewrite nagios_script_setup_eq, Hcli. split.
  - intros check s' Hsetup.
    destruct (resolve (argparse.slack_webhook_url cli) url);
      [destruct (logging.dict_get_opt _ _ _); [|discriminate]|];
      inversion Hsetup; subst; split; reflexivity.
  - intros Hu. rewrite Hu. eauto.
Qed.

Lemma default_selection_is_whole_case_witness :
  exists check s',
    nagios_script_setup Examples.plain_format Examples.MixedCase (Some 30)
      None None None (Examples.process_of ["-n"; "unit tests"]) = (inl check, s')
    /\ test_names (check_resource check) = ["MixedCase"]
    /\ probe (check_resource check)
       = [mkMetric "MixedCase" true "UnittestCaseContext"].
Proof.
  pose (H := default_selection_is_whole_case
               Examples.plain_format Examples.MixedCase 30 None None None
               (Examples.process_of ["-n"; "unit tests"])
               (argparse.mkNamespace (Some "unit tests") None None None None)
               eq_refl).
  destruct (proj2 H eq_refl) as (check & s' & Hsetup).
  exists check, s'. split; [exact Hsetup | exact (proj1 H check s' Hsetup)].
Defined.

(** C7, as the claim states it, fails: the command line [-v] holds no
    positional argument, [-v] being an option for the parser, one it does
    not know; [parse_known_args] leaves it over and the selection is
    [["-v"]], not the name of the class. *)
Lemma default_selection_unknown_option :
  let s := Examples.process_of ["-v"] in
  let run := nagios_script_setup Examples.plain_format Examples.MixedCase (Some 30)
               None None None s in
  argparse._parse_optional
    (script_parser Examples.MixedCase (Some "WARNING") None None) "-v"
  = argparse.optional None "-v" None
  /\ fst run
     = inl (check_of Examples.plain_format Examples.MixedCase
                     (argparse.mkNamespace None None None None None) ["-v"])
  /\ (forall check, fst run = inl check ->
                    test_names (check_resource check) = ["-v"]
                    /\ test_names (check_resource check) <> [cls_name Examples.MixedCase]).
Proof.
  cbv zeta. split; [reflexivity|]. split; [reflexivity|].
  intros check H. inversion H; subst. split; [reflexivity | discriminate].
Qed.

(** C8: the webhook URL, the channel and the user are each the value of
    their command-line flag when the flag is given and the caller's default
    otherwise.  When this leaves no webhook URL, the run ends with the
    handlers of the logger unchanged; when it gives a webhook URL and the
    log-level name (from [--slack-log-level], or else the name of the
    caller's default level) is a recognised one, the run ends with exactly
    one handler added, built from the resolved URL, channel and user at the
    level of that name. *)
Theorem notification_configuration
        (format : string -> Metric -> string) (c : TestCaseClass) (lv : Z)
        (url ch user : option string) (s : Process)
        (cli : argparse.Namespace) (extras : list string) :
  command_line c (sys_argv s) = argparse.Success cli extras ->
  let slack_webhook_url := resolve (argparse.slack_webhook_url cli) url in
  let slack_channel := resolve (argparse.slack_channel cli) ch in
  let slack_user := resolve (argparse.slack_user cli) user in
  let level_name := resolve (argparse.log_level cli)
                            (logging.dict_get Z.eqb logging._levelToName lv) in
  (slack_webhook_url = None ->
   exists status output s',
     nagios_script format c (Some lv) url ch user s = (inr (Exit status output), s')
     /\ log_handlers s' = log_handlers s)
  /\ (forall u lvl,
         slack_webhook_url = Some u ->
         logging.dict_get_opt String.eqb logging._nameToLevel level_name = Some lvl ->
         exists status output s',
           nagios_script format c (Some lv) url ch user s
           = (inr (Exit status output), s')
           /\ log_handlers s'
              = (log_handlers s ++ [mkSlackHandler u slack_channel slack_user lvl])%list).
Proof.
  intros Hcli. cbv zeta.
  pose proof (nagios_script_setup_eq format c lv url ch user s) as Hsetup.
  rewrite Hcli in Hsetup.
  split.
  - intros Hu. rewrite Hu in Hsetup.
    destruct (nagios_script_after_setup format c (Some lv) url ch user s _ _ Hsetup)
      as (status & output & s' & Hrun & Hh).
    exists status, output, s'. auto.
  - intros u lvl Hu Hlvl. rewrite Hu, Hlvl in Hsetup.
    destruct (nagios_script_after_setup format c (Some lv) url ch user s _ _ Hsetup)
      as (status & output & s' & Hrun & Hh).
    exists status, output, s'. auto.
Qed.

Lemma notification_configuration_witness :
  (exists status output s',
      nagios_script Examples.plain_format Examples.MixedCase (Some 30)
        None (Some "#general") (Some "nagios")
        (Examples.process_of ["-c"; "#alerts"])
      = (inr (Exit status output), s')
      /\ log_handlers s' = [])
  /\ (exists status output s',
         nagios_script Examples.plain_format Examples.MixedCase (Some 30)
           (Some "https://hooks.example/default") (Some "#general") (Some "nagios")
           (Examples.process_of
              ["--slack-webhook-url"; "https://hooks.example/T0";
               "-c"; "#alerts"; "-l"; "ERROR"])
         = (inr (Exit status output), s')
         /\ log_handlers s'
            = [mkSlackHandler "https://hooks.example/T0" (Some "#alerts")
                              (Some "nagios") 40]).
Proof.
  split.
  - exact (proj1 (notification_configuration
                    Examples.plain_format Examples.MixedCase 30
                    None (Some "#general") (Some "nagios")
                    (Examples.process_of ["-c"; "#alerts"])
                    (argparse.mkNamespace None None None (Some "#alerts") None) []
                    eq_refl)
                 eq_refl).
  - exact (proj2 (notification_configuration
                    Examples.plain_format Examples.MixedCase 30
                    (Some "https://hooks.example/default") (Some "#general")
                    (Some "nagios")
                    (Examples.process_of
                       ["--slack-webhook-url"; "https://hooks.example/T0";
                        "-c"; "#alerts"; "-l"; "ERROR"])
                    (argparse.mkNamespace None (Some "ERROR")
                       (Some "https://hooks.example/T0") (Some "#alerts") None) []
                    eq_refl)
                 "https://hooks.example/T0" 40 eq_refl eq_refl).
Defined.

(** ** Worked examples *)

Example evaluate_failing_case :
  fst (evaluate (Examples.context_of Examples.FailingCase)
                (Examples.metric_of "FailingCase"))
  = mkResult Critical
      "All tests failed: test_two (tests.FailingCase), test_one (tests.FailingCase)"
      (Examples.metric_of "FailingCase").
Proof. reflexivity. Qed.

Example parse_abbreviated_and_explicit :
  command_line Examples.MixedCase
    ["--slack-web=https://hooks.example/T0"; "-lDEBUG"; "MixedCase.test_a"]
  = argparse.Success
      (argparse.mkNamespace None (Some "DEBUG") (Some "https://hooks.example/T0")
                            None None)
      ["MixedCase.test_a"].
Proof. reflexivity. Qed.

Example parse_missing_argument :
  command_line Examples.MixedCase ["-l"; "-s"; "https://hooks.example/T0"]
  = argparse.error "expected one argument".
Proof. reflexivity. Qed.

Example parse_argument_before_double_dash :
  command_line Examples.MixedCase ["-n"; "x"; "--"; "y"]
  = argparse.Success (argparse.mkNamespace (Some "x") None None None None) ["--"; "y"].
Proof. reflexivity. Qed.

Example parse_double_dash_is_no_argument :
  command_line Examples.MixedCase ["-s"; "--"; "https://hooks.example/T0"]
  = argparse.error "expected one argument".
Proof. reflexivity. Qed.

Example parse_help_with_short_option :
  command_line Examples.MixedCase ["-hs"; "x"] = argparse.help_exit.
Proof. reflexivity. Qed.

Example parse_explicit_double_dash :
  command_line Examples.MixedCase ["-s=--"; "y"]
  = argparse.list_values (argparse.mkNamespace None None None None None)
                         [argparse.dest_slack_webhook_url] ["y"].
Proof. reflexivity. Qed.

Example evaluate_tearDownClass_error :
  fst (evaluate (Examples.context_of MoreExamples.TearDownClassCase)
                (Examples.metric_of "TearDownClassCase"))
  = mkResult Warn "Some tests failed: tearDownClass (tests.TearDownClassCase)"
             (Examples.metric_of "TearDownClassCase").
Proof. reflexivity. Qed.

Example evaluate_setUpClass_error :
  testsRun (TestSuite_run (loadTestsFromTestCase MoreExamples.SetUpClassCase)
                          TestResult_new) = 0
  /\ fst (evaluate (Examples.context_of MoreExamples.SetUpClassCase)
                   (Examples.metric_of "SetUpClassCase"))
     = mkResult Warn "Some tests failed: setUpClass (tests.SetUpClassCase)"
                (Examples.metric_of "SetUpClassCase").
Proof. split; reflexivity. Qed.

Example evaluate_subtests :
  fst (evaluate (Examples.context_of MoreExamples.SubTestCase)
                (Examples.metric_of "SubTestCase"))
  = mkResult Warn
      "Some tests failed: test_each (tests.SubTestCase) (i=1), test_each (tests.SubTestCase) (i=2)"
      (Examples.metric_of "SubTestCase").
Proof. reflexivity. Qed.

(** * Further properties of the script *)

(** ** What [evaluate] logs *)

Lemma length_records (l : list (Test * string)) :
  length (flat_map records_of l) = (2 * length l)%nat.
Proof. induction l as [|p l IH]; simpl; [reflexivity | rewrite IH; lia]. Qed.

Lemma attachments_records (l : list (Test * string)) :
  attachments (flat_map records_of l) = map snd l.
Proof.
  unfold attachments. induction l as [|p l IH]; simpl; [reflexivity|].
  now rewrite IH.
Qed.

Lemma messages_records (l : list (Test * string)) :
  messages_at logging.ERROR (flat_map records_of l) = map (fun p => str (fst p)) l.
Proof.
  unfold messages_at. induction l as [|p l IH]; simpl; [reflexivity|].
  now rewrite IH.
Qed.

(** X1: an evaluation with problems logs, first, one record at CRITICAL
    saying that the described metric failed, whether the status is
    [Critical] or only [Warn], and then two records for every entry of
    [errors] and [failures]. *)
Theorem evaluate_logs_critical_first (self : UnittestCaseContext) (m : Metric)
        (r : TestResult) :
  0 < n_problems r ->
  let logged := snd (evaluate_result self m r) in
  hd_error logged = Some (logging.critical (describe self m ++ " failed"))
  /\ Z.of_nat (length logged) = 1 + 2 * n_problems r.
Proof.
  intros Hpos. cbv zeta. rewrite evaluate_result_eq.
  apply Z.ltb_lt in Hpos. rewrite Hpos. cbn [snd hd_error].
  split; [reflexivity|].
  cbn [length]. rewrite length_app, !length_records.
  unfold n_problems, n_failures, n_errors. lia.
Qed.

Lemma evaluate_logs_critical_first_witness :
  let r := TestSuite_run (loadTestsFromTestCase Examples.MixedCase) TestResult_new in
  let logged := snd (evaluate_result (Examples.context_of Examples.MixedCase)
                                     (Examples.metric_of "MixedCase") r) in
  state (fst (evaluate_result (Examples.context_of Examples.MixedCase)
                              (Examples.metric_of "MixedCase") r)) = Warn
  /\ hd_error logged = Some (logging.critical "MixedCase failed")
  /\ Z.of_nat (length logged) = 5.
Proof.
  cbv zeta. split; [reflexivity|].
  apply (evaluate_logs_critical_first
           (Examples.context_of Examples.MixedCase)
           (Examples.metric_of "MixedCase")
           (TestSuite_run (loadTestsFromTestCase Examples.MixedCase) TestResult_new)).
  vm_compute. reflexivity.
Defined.

(** X2: the messages logged at ERROR are the names the hint lists, in the
    same order, and the tracebacks attached to the records are those of
    the entries of [errors] followed by those of [failures], each once. *)
Theorem evaluate_logs_names_and_tracebacks (self : UnittestCaseContext) (m : Metric)
        (r : TestResult) :
  0 < n_problems r ->
  let logged := snd (evaluate_result self m r) in
  messages_at logging.ERROR logged = problem_names r
  /\ hint (fst (evaluate_result self m r))
     = (if testsRun r =? n_problems r
        then "All tests failed: " else "Some tests failed: ")
       ++ String.concat ", " (messages_at logging.ERROR logged)
  /\ attachments logged = (map snd (errors r) ++ map snd (failures r))%list.
Proof.
  intros Hpos. cbv zeta. rewrite evaluate_result_eq.
  apply Z.ltb_lt in Hpos. rewrite Hpos. cbn [snd fst hint].
  assert (Hm : messages_at logging.ERROR
                 (logging.critical (describe self m ++ " failed")
                  :: flat_map records_of (errors r)
                  ++ flat_map records_of (failures r))%list
               = problem_names r).
  { change (messages_at logging.ERROR
              (flat_map records_of (errors r) ++ flat_map records_of (failures r))%list
            = problem_names r).
    unfold messages_at. rewrite filter_app, map_app.
    fold (messages_at logging.ERROR (flat_map records_of (errors r))).
    fold (messages_at logging.ERROR (flat_map records_of (failures r))).
    now rewrite !messages_records. }
  rewrite Hm. repeat split.
  change (attachments (flat_map records_of (errors r)
                       ++ flat_map records_of (failures r))%list
          = (map snd (errors r) ++ map snd (failures r))%list).
  unfold attachments. rewrite flat_map_app.
  fold (attachments (flat_map records_of (errors r))).
  fold (attachments (flat_map records_of (failures r))).
  now rewrite !attachments_records.
Qed.

Lemma evaluate_logs_names_and_tracebacks_witness :
  let r := TestSuite_run (loadTestsFromTestCase Examples.MixedCase) TestResult_new in
  let logged := snd (evaluate_result (Examples.context_of Examples.MixedCase)
                                     (Examples.metric_of "MixedCase") r) in
  messages_at logging.ERROR logged
  = ["test_c (tests.MixedCase)"; "test_b (tests.MixedCase)"]
  /\ hint (fst (evaluate_result (Examples.context_of Examples.MixedCase)
                                (Examples.metric_of "MixedCase") r))
     = "Some tests failed: "
       ++ String.concat ", " (messages_at logging.ERROR logged)
  /\ attachments logged = ["Traceback c"; "Traceback b"].
Proof.
  apply (evaluate_logs_names_and_tracebacks
           (Examples.context_of Examples.MixedCase)
           (Examples.metric_of "MixedCase")
           (TestSuite_run (loadTestsFromTestCase Examples.MixedCase) TestResult_new)).
  vm_compute. reflexivity.
Defined.

Lemma evaluate_result_Ok_iff (self : UnittestCaseContext) (m : Metric) (r : TestResult) :
  state (fst (evaluate_result self m r)) = Ok <-> n_problems r = 0.
Proof.
  rewrite evaluate_result_eq. pose proof (n_problems_nonneg r) as Hn.
  destruct (Z.ltb_spec 0 (n_problems r)) as [Hpos|Hzero]; cbn [fst state].
  - split; [|lia]. destruct (testsRun r =? n_problems r); discriminate.
  - split; [lia | reflexivity].
Qed.

(** X3: [evaluate] logs nothing exactly when it returns [Ok]: a passing
    evaluation is silent and every other one leaves records. *)
Theorem evaluate_silent_iff_ok (self : UnittestCaseContext) (m : Metric)
        (r : TestResult) :
  snd (evaluate_result self m r) = [] <-> state (fst (evaluate_result self m r)) = Ok.
Proof.
  rewrite evaluate_result_Ok_iff, evaluate_result_eq.
  pose proof (n_problems_nonneg r) as Hn.
  destruct (Z.ltb_spec 0 (n_problems r)) as [Hpos|Hzero]; cbn [snd].
  - split; [discriminate | lia].
  - split; [lia | reflexivity].
Qed.

(** ** Edge cases of the status rule *)

(** X5: a class from which no test is loaded is reported as passing: the
    result is [Ok] with the hint ["<test_name> test passed"], although no
    test ran, and nothing is logged. *)
Theorem evaluate_empty_case_ok (self : UnittestCaseContext) (m : Metric) :
  loadTestsFromTestCase (_unittestcase_class self) = [] ->
  testsRun (TestSuite_run (loadTestsFromTestCase (_unittestcase_class self))
                          TestResult_new) = 0
  /\ evaluate self m = (mkResult Ok (name m ++ " test passed") m, []).
Proof.
  intros Hempty. unfold evaluate. rewrite Hempty. split; reflexivity.
Qed.

Lemma evaluate_empty_case_ok_witness :
  evaluate (Examples.context_of MoreExamples.EmptyCase) (Examples.metric_of "EmptyCase")
  = (mkResult Ok "EmptyCase test passed" (Examples.metric_of "EmptyCase"), []).
Proof.
  exact (proj2 (evaluate_empty_case_ok
                  (Examples.context_of MoreExamples.EmptyCase)
                  (Examples.metric_of "EmptyCase") eq_refl)).
Defined.

(** X6: when more problems are recorded than tests were run (a test
    recorded in both lists), the status is [Warn] and the hint starts with
    ["Some tests failed: "], even if no test passed. *)
Theorem evaluate_more_problems_than_tests (self : UnittestCaseContext) (m : Metric)
        (r : TestResult) :
  0 <= testsRun r < n_problems r ->
  state (fst (evaluate_result self m r)) = Warn
  /\ hint (fst (evaluate_result self m r))
     = "Some tests failed: " ++ String.concat ", " (problem_names r).
Proof.
  intros [Hrun Hmore]. rewrite evaluate_result_eq.
  assert (Hpos : (0 <? n_problems r) = true) by (apply Z.ltb_lt; lia).
  assert (Hne : (testsRun r =? n_problems r) = false) by (apply Z.eqb_neq; lia).
  rewrite Hpos, Hne. split; reflexivity.
Qed.

Lemma evaluate_more_problems_than_tests_witness :
  let self := Examples.context_of MoreExamples.TwiceCase in
  let r := TestSuite_run (loadTestsFromTestCase MoreExamples.TwiceCase) TestResult_new in
  (forall t, In t (loadTestsFromTestCase MoreExamples.TwiceCase) -> ~ passes t)
  /\ state (fst (evaluate_result self (Examples.metric_of "TwiceCase") r)) = Warn
  /\ hint (fst (evaluate_result self (Examples.metric_of "TwiceCase") r))
     = "Some tests failed: test_only (tests.TwiceCase), test_only (tests.TwiceCase)".
Proof.
  cbv zeta. split.
  - intros t [<- | []]. discriminate.
  - apply (evaluate_more_problems_than_tests
             (Examples.context_of MoreExamples.TwiceCase)
             (Examples.metric_of "TwiceCase")
             (TestSuite_run (loadTestsFromTestCase MoreExamples.TwiceCase)
                            TestResult_new)).
    vm_compute. split; [discriminate | reflexivity].
Defined.

(** ** The set-up of the script, whatever its end *)

Section SetupProperties.

Variable format : string -> Metric -> string.

(** When the set-up returns, it returns the check built from the command
    line, and the default log-level was not [None]. *)
Lemma nagios_script_setup_returns (c : TestCaseClass) (log_level : option Z)
      (url ch user : option string) (s s' : Process) (check : Check) :
  nagios_script_setup format c log_level url ch user s = (inl check, s') ->
  exists lv cli extras,
    log_level = Some lv
    /\ command_line c (sys_argv s) = argparse.Success cli extras
    /\ check = check_of format c cli extras.
Proof.
  destruct log_level as [lv|]; [|discriminate].
  rewrite nagios_script_setup_eq.
  destruct (command_line c (sys_argv s)) as [cli extras|cli lists extras| |];
    try discriminate.
  intros H. exists lv, cli, extras.
  destruct (resolve (argparse.slack_webhook_url cli) url);
    [destruct (logging.dict_get_opt _ _ _); [|discriminate]|];
    inversion H; auto.
Qed.

(** A set-up that stops short without an exception ends the script the
    same way. *)
Lemma nagios_script_stops (c : TestCaseClass) (log_level : option Z)
      (url ch user : option string) (s s1 : Process) (a : Abort) :
  nagios_script_setup format c log_level url ch user s = (inr a, s1) ->
  (forall e, a <> Raise e) ->
  nagios_script format c log_level url ch user s = (inr a, s1).
Proof.
  intros Hsetup Hne.
  unfold nagios_script, guarded, nagios_script_body, bind. rewrite Hsetup.
  destruct a as [e| | | |]; try reflexivity. now destruct (Hne e).
Qed.

End SetupProperties.

(** Every level [logging._nameToLevel] gives is one of the six standard
    levels. *)
Lemma nameToLevel_standard (level_name : option string) (lvl : Z) :
  logging.dict_get_opt String.eqb logging._nameToLevel level_name = Some lvl ->
  In lvl standard_levels.
Proof.
  destruct level_name as [n|]; [|discriminate].
  cbv [logging.dict_get_opt logging.dict_get logging._nameToLevel].
  repeat (destruct (String.eqb _ n);
          [intros H; inversion H; cbv [standard_levels]; simpl; tauto|]).
  discriminate.
Qed.

(** A level of [logging._levelToName] is found again under its name. *)
Lemma level_name_round_trip (lv : Z) (level_name : string) :
  logging.dict_get Z.eqb logging._levelToName lv = Some level_name ->
  logging.dict_get String.eqb logging._nameToLevel level_name = Some lv.
Proof.
  cbv [logging.dict_get logging._levelToName].
  repeat (match goal with
          | |- context [Z.eqb ?k lv] =>
              destruct (Z.eqb_spec k lv);
              [intros H; inversion H; subst; reflexivity|]
          end).
  discriminate.
Qed.

(** ** The default log-level *)

(** X7: the set-up raises the configuration error exactly when the default
    log-level is [None], and then before anything else happens: the
    command line is not parsed and the logger is not touched. *)
Theorem config_error_iff_default_None
        (format : string -> Metric -> string) (c : TestCaseClass)
        (log_level : option Z) (url ch user : option string) (s : Process) :
  ((exists e, fst (nagios_script_setup format c log_level url ch user s)
              = inr (Raise e))
   <-> log_level = None)
  /\ (log_level = None ->
      snd (nagios_script_setup format c log_level url ch user s) = s).
Proof.
  destruct log_level as [lv|].
  - split; [|discriminate]. split; [|discriminate].
    intros (e & He). exfalso.
    exact (nagios_script_setup_no_raise format c lv url ch user s e He).
  - split; [|reflexivity]. split; [reflexivity|]. intros _. eexists. reflexivity.
Qed.

(** X9: a default log-level that is not [None] and not a level of
    [logging._levelToName] is noticed only later and as a usage error:
    when a webhook URL is resolved and [--slack-log-level] is not given,
    the script ends through [parser.error] and attaches no handler. *)
Theorem unrecognised_default_level_is_usage_error
        (format : string -> Metric -> string) (c : TestCaseClass) (lv : Z)
        (url ch user : option string) (s : Process)
        (cli : argparse.Namespace) (extras : list string) (u : string) :
  logging.dict_get Z.eqb logging._levelToName lv = None ->
  command_line c (sys_argv s) = argparse.Success cli extras ->
  argparse.log_level cli = None ->
  resolve (argparse.slack_webhook_url cli) url = Some u ->
  nagios_script format c (Some lv) url ch user s
  = (inr (UsageError unrecognised_log_level), after_parse s).
Proof.
  intros Hlv Hcli Hflag Hu.
  apply nagios_script_stops; [|discriminate].
  rewrite nagios_script_setup_eq, Hcli, Hu, Hflag, Hlv. reflexivity.
Qed.

Lemma unrecognised_default_level_is_usage_error_witness :
  nagios_script Examples.plain_format Examples.MixedCase (Some 42)
    (Some "https://hooks.example/default") None None (Examples.process_of [])
  = (inr (UsageError unrecognised_log_level),
     after_parse (Examples.process_of [])).
Proof.
  exact (unrecognised_default_level_is_usage_error
           Examples.plain_format Examples.MixedCase 42
           (Some "https://hooks.example/default") None None
           (Examples.process_of [])
           (argparse.mkNamespace None None None None None) []
           "https://hooks.example/default" eq_refl eq_refl eq_refl eq_refl).
Defined.

(** X10: a recognised default log-level survives the detour through its
    name: when [--slack-log-level] is not given and a webhook URL is
    resolved, the handler is attached at the caller's level itself. *)
Theorem default_level_round_trip
        (format : string -> Metric -> string) (c : TestCaseClass) (lv : Z)
        (level_name : string) (url ch user : option string) (s : Process)
        (cli : argparse.Namespace) (extras : list string) (u : string) :
  logging.dict_get Z.eqb logging._levelToName lv = Some level_name ->
  command_line c (sys_argv s) = argparse.Success cli extras ->
  argparse.log_level cli = None ->
  resolve (argparse.slack_webhook_url cli) url = Some u ->
  exists status output s',
    nagios_script format c (Some lv) url ch user s = (inr (Exit status output), s')
    /\ log_handlers s'
       = (log_handlers s
          ++ [mkSlackHandler u (resolve (argparse.slack_channel cli) ch)
                             (resolve (argparse.slack_user cli) user) lv])%list.
Proof.
  intros Hlv Hcli Hflag Hu.
  pose proof (nagios_script_setup_eq format c lv url ch user s) as Hsetup.
  rewrite Hcli, Hu, Hflag, Hlv in Hsetup. cbn [resolve logging.dict_get_opt] in Hsetup.
  rewrite (level_name_round_trip lv level_name Hlv) in Hsetup.
  destruct (nagios_script_after_setup format c (Some lv) url ch user s _ _ Hsetup)
    as (status & output & s' & Hrun & Hh).
  exists status, output, s'. auto.
Qed.

Lemma default_level_round_trip_witness :
  exists status output s',
    nagios_script Examples.plain_format Examples.PassingCase (Some logging.INFO)
      (Some "https://hooks.example/default") None (Some "nagios")
      (Examples.process_of ["-c"; "#alerts"])
    = (inr (Exit status output), s')
    /\ log_handlers s'
       = [mkSlackHandler "https://hooks.example/default" (Some "#alerts")
                         (Some "nagios") logging.INFO].
Proof.
  exact (default_level_round_trip
           Examples.plain_format Examples.PassingCase logging.INFO "INFO"
           (Some "https://hooks.example/default") None (Some "nagios")
           (Examples.process_of ["-c"; "#alerts"])
           (argparse.mkNamespace None None None (Some "#alerts") None) []
           "https://hooks.example/default" eq_refl eq_refl eq_refl eq_refl).
Defined.

(** ** The logger *)

(** X11: whatever the arguments and however the run ends, the script keeps
    the handlers the logger had and adds at most one, and a handler it adds
    has one of the six standard levels. *)
Theorem nagios_script_adds_at_most_one_handler
        (format : string -> Metric -> string) (c : TestCaseClass)
        (log_level : option Z) (url ch user : option string) (s : Process) :
  exists added : list SlackHandler,
    log_handlers (snd (nagios_script format c log_level url ch user s))
    = (log_handlers s ++ added)%list
    /\ (length added <= 1)%nat
    /\ (forall h, In h added -> In (level h) standard_levels).
Proof.
  destruct log_level as [lv|].
  2:{ exists []. cbn. rewrite app_nil_r. repeat split; [lia | intros h []]. }
  pose proof (nagios_script_setup_eq format c lv url ch user s) as Hsetup.
  assert (Hnone : forall a s1,
            nagios_script_setup format c (Some lv) url ch user s = (inr a, s1) ->
            (forall e, a <> Raise e) -> log_handlers s1 = log_handlers s ->
            exists added : list SlackHandler,
              log_handlers (snd (nagios_script format c (Some lv) url ch user s))
              = (log_handlers s ++ added)%list
              /\ (length added <= 1)%nat
              /\ (forall h, In h added -> In (level h) standard_levels)).
  { intros a s1 H Hne Hh. exists [].
    rewrite (nagios_script_stops format c (Some lv) url ch user s s1 a H Hne).
    cbn [snd]. rewrite Hh, app_nil_r. repeat split; [simpl; lia | intros h []]. }
  destruct (command_line c (sys_argv s)) as [cli extras|cli lists extras| |];
    [| eapply Hnone; [exact Hsetup | discriminate | reflexivity]
     | eapply Hnone; [exact Hsetup | discriminate | reflexivity]
     | eapply Hnone; [exact Hsetup | discriminate | reflexivity]].
  destruct (resolve (argparse.slack_webhook_url cli) url) as [u|].
  - destruct (logging.dict_get_opt String.eqb logging._nameToLevel _) as [lvl|] eqn:El;
      [| eapply Hnone; [exact Hsetup | discriminate | reflexivity]].
    destruct (nagios_script_after_setup format c (Some lv) url ch user s _ _ Hsetup)
      as (status & output & s' & Hrun & Hh).
    eexists [_]. rewrite Hrun. cbn [snd]. rewrite Hh.
    split; [reflexivity|]. split; [simpl; lia|].
    intros h [<- | []]. cbn [level]. exact (nameToLevel_standard _ _ El).
  - destruct (nagios_script_after_setup format c (Some lv) url ch user s _ _ Hsetup)
      as (status & output & s' & Hrun & Hh).
    exists []. rewrite Hrun. cbn [snd]. rewrite Hh, app_nil_r.
    repeat split; [simpl; lia | intros h []].
Qed.

(** ** The check the script builds *)

(** X12: the selection handed to the resource is never empty, and when the
    command line leaves strings over they are the selection as they stand:
    in their order, duplicates kept, not compared with the tests of the
    class; the resource then yields one metric per string. *)
Theorem selection_is_leftover_strings
        (format : string -> Metric -> string) (c : TestCaseClass)
        (log_level : option Z) (url ch user : option string)
        (s s' : Process) (check : Check) :
  nagios_script_setup format c log_level url ch user s = (inl check, s') ->
  test_names (check_resource check) <> []
  /\ (forall cli extras,
         command_line c (sys_argv s) = argparse.Success cli extras ->
         extras <> [] -> test_names (check_resource check) = extras)
  /\ map name (probe (check_resource check)) = test_names (check_resource check).
Proof.
  intros Hsetup.
  destruct (nagios_script_setup_returns format c log_level url ch user s s' check Hsetup)
    as (lv & cli & extras & -> & Hcli & ->).
  split; [|split].
  - cbn. destruct extras; discriminate.
  - intros cli' extras' Hcli' Hne. rewrite Hcli in Hcli'. inversion Hcli'; subst.
    cbn. destruct extras'; [contradiction | reflexivity].
  - unfold probe. rewrite map_map. cbn [name]. apply map_id.
Qed.

Lemma selection_is_leftover_strings_witness :
  exists check s',
    nagios_script_setup Examples.plain_format Examples.MixedCase (Some 30)
      None None None
      (Examples.process_of ["MixedCase.test_b"; "no_such_test"; "MixedCase.test_b"])
    = (inl check, s')
    /\ map name (probe (check_resource check))
       = ["MixedCase.test_b"; "no_such_test"; "MixedCase.test_b"].
Proof.
  exists (check_of Examples.plain_format Examples.MixedCase
                   (argparse.mkNamespace None None None None None)
                   ["MixedCase.test_b"; "no_such_test"; "MixedCase.test_b"]).
  exists (after_parse (Examples.process_of
                         ["MixedCase.test_b"; "no_such_test"; "MixedCase.test_b"])).
  split; [reflexivity|].
  destruct (selection_is_leftover_strings
              Examples.plain_format Examples.MixedCase (Some 30) None None None
              (Examples.process_of
                 ["MixedCase.test_b"; "no_such_test"; "MixedCase.test_b"])
              (after_parse (Examples.process_of
                 ["MixedCase.test_b"; "no_such_test"; "MixedCase.test_b"]))
              (check_of Examples.plain_format Examples.MixedCase
                 (argparse.mkNamespace None None None None None)
                 ["MixedCase.test_b"; "no_such_test"; "MixedCase.test_b"])
              eq_refl) as (_ & Hextras & Hnames).
  rewrite Hnames.
  exact (Hextras (argparse.mkNamespace None None None None None)
                 ["MixedCase.test_b"; "no_such_test"; "MixedCase.test_b"]
                 eq_refl ltac:(discriminate)).
Defined.

(** X13: the name of the check is the value of [--test-name] when it is
    given and the name of the test-case class otherwise, never [None]; the
    context describes every metric by formatting that same name. *)
Theorem check_name_is_flag_or_class_name
        (format : string -> Metric -> string) (c : TestCaseClass)
        (log_level : option Z) (url ch user : option string)
        (s s' : Process) (check : Check)
        (cli : argparse.Namespace) (extras : list string) :
  nagios_script_setup format c log_level url ch user s = (inl check, s') ->
  command_line c (sys_argv s) = argparse.Success cli extras ->
  let shown := match argparse.check_name cli with
               | Some n => n
               | None => cls_name c
               end in
  check_name check = Some shown
  /\ (forall m, describe (check_context check) m = format shown m).
Proof.
  intros Hsetup Hcli.
  destruct (nagios_script_setup_returns format c log_level url ch user s s' check Hsetup)
    as (lv & cli' & extras' & -> & Hcli' & ->).
  rewrite Hcli in Hcli'. inversion Hcli'; subst.
  cbv zeta. cbn. destruct (argparse.check_name cli'); split; reflexivity.
Qed.

Lemma check_name_is_flag_or_class_name_witness :
  exists check s',
    nagios_script_setup Examples.plain_format Examples.MixedCase (Some 30)
      None None None (Examples.process_of ["--test-name"; "unit tests"])
    = (inl check, s')
    /\ check_name check = Some "unit tests"
    /\ (forall m, describe (check_context check) m = "unit tests").
Proof.
  exists (check_of Examples.plain_format Examples.MixedCase
                   (argparse.mkNamespace (Some "unit tests") None None None None) []).
  exists (after_parse (Examples.process_of ["--test-name"; "unit tests"])).
  split; [reflexivity|].
  exact (check_name_is_flag_or_class_name
           Examples.plain_format Examples.MixedCase (Some 30) None None None
           (Examples.process_of ["--test-name"; "unit tests"])
           (after_parse (Examples.process_of ["--test-name"; "unit tests"]))
           (check_of Examples.plain_format Examples.MixedCase
              (argparse.mkNamespace (Some "unit tests") None None None None) [])
           (argparse.mkNamespace (Some "unit tests") None None None None) []
           eq_refl eq_refl).
Defined.

(** X14: every metric the resource yields names the context the script
    builds, and that context holds the caller's test-case class: no metric
    is left without its context. *)
Theorem metrics_name_the_context
        (format : string -> Metric -> string) (c : TestCaseClass)
        (log_level : option Z) (url ch user : option string)
        (s s' : Process) (check : Check) :
  nagios_script_setup format c log_level url ch user s = (inl check, s') ->
  _unittestcase_class (check_context check) = c
  /\ (forall m, In m (probe (check_resource check)) ->
                context m = context_name (check_context check) /\ value m = true).
Proof.
  intros Hsetup.
  destruct (nagios_script_setup_returns format c log_level url ch user s s' check Hsetup)
    as (lv & cli & extras & -> & Hcli & ->).
  split; [reflexivity|].
  intros m Hin. unfold probe in Hin. apply in_map_iff in Hin.
  destruct Hin as (n & <- & _). split; reflexivity.
Qed.

Lemma metrics_name_the_context_witness :
  exists check s',
    nagios_script_setup Examples.plain_format Examples.MixedCase (Some 30)
      None None None (Examples.process_of ["MixedCase.test_a"])
    = (inl check, s')
    /\ _unittestcase_class (check_context check) = Examples.MixedCase
    /\ (forall m, In m (probe (check_resource check)) ->
                  context m = context_name (check_context check) /\ value m = true).
Proof.
  exists (check_of Examples.plain_format Examples.MixedCase
                   (argparse.mkNamespace None None None None None)
                   ["MixedCase.test_a"]).
  exists (after_parse (Examples.process_of ["MixedCase.test_a"])).
  split; [reflexivity|].
  exact (metrics_name_the_context
           Examples.plain_format Examples.MixedCase (Some 30) None None None
           (Examples.process_of ["MixedCase.test_a"])
           (after_parse (Examples.process_of ["MixedCase.test_a"]))
           (check_of Examples.plain_format Examples.MixedCase
              (argparse.mkNamespace None None None None None) ["MixedCase.test_a"])
           eq_refl).
Defined.

(** ** The parser and the caller's defaults *)


(** ** The identifier and the names of the levels *)

(** X17: the identifier under evaluation changes nothing of a failing
    evaluation but the description in the first log record: two
    identifiers give the same status and, unless it is [Ok], the same hint
    and the same records after the first. *)
Theorem evaluate_independent_of_identifier (self : UnittestCaseContext)
        (m1 m2 : Metric) :
  state (fst (evaluate self m1)) = state (fst (evaluate self m2))
  /\ (state (fst (evaluate self m1)) <> Ok ->
      hint (fst (evaluate self m1)) = hint (fst (evaluate self m2))
      /\ tl (snd (evaluate self m1)) = tl (snd (evaluate self m2))).
Proof.
  unfold evaluate. rewrite !evaluate_result_eq.
  destruct (0 <? n_problems _); cbn [fst snd state hint tl].
  - auto.
  - split; [reflexivity | contradiction].
Qed.


